(** * Job lifecycle of the minimal cloud server (Server/minimal-server.py)

    A shallow embedding of the asynchronous job core of the mock server:
    the four in-memory dictionaries, the compile and backtest handlers,
    and the two background runners [simulate_compilation] and
    [simulate_backtest].  Handlers run in a small state-and-exception
    monad over the shared store; runner threads are programs whose
    instructions are interleaved with the handlers by a scheduler trace. *)

From Stdlib Require Import ZArith List Lia Bool.
From Stdlib Require Import Floats.SpecFloat.
From stdpp Require Import base decidable option list strings.

Local Open Scope Z_scope.
Local Open Scope string_scope.
Local Open Scope list_scope.

(* ===================================================================== *)
(** ** Python floats: IEEE-754 binary64 *)
(* ===================================================================== *)

Module F64.

Definition prec : Z := 53.
Definition emax : Z := 1024.

Definition float := spec_float.

(** [float(z)] for an integer small enough to be exact. *)
Definition of_int (z : Z) : float := binary_normalize prec emax z 0 false.

(** True division [x / y]. *)
Definition div (x y : float) : float := SFdiv prec emax x y.

Definition eqb (x y : float) : bool := SFeqb x y.
Definition leb (x y : float) : bool := SFleb x y.

(** The literals of the source, as their binary64 bit patterns
    (mantissa and exponent). *)
Definition lit_0_0 : float := S754_zero false.
Definition lit_0_1 : float := S754_finite false 7205759403792794 (-56).
Definition lit_0_2 : float := S754_finite false 7205759403792794 (-55).
Definition lit_0_3 : float := S754_finite false 5404319552844595 (-54).
Definition lit_0_4 : float := S754_finite false 7205759403792794 (-54).
Definition lit_0_5 : float := S754_finite false 4503599627370496 (-53).
Definition lit_0_6 : float := S754_finite false 5404319552844595 (-53).
Definition lit_0_7 : float := S754_finite false 6305039478318694 (-53).
Definition lit_0_8 : float := S754_finite false 7205759403792794 (-53).
Definition lit_0_9 : float := S754_finite false 8106479329266893 (-53).
Definition lit_1_0 : float := S754_finite false 4503599627370496 (-52).
Definition lit_10_0 : float := S754_finite false 5629499534213120 (-49).
Definition lit_0_68 : float := S754_finite false 6124895493223875 (-53).
Definition lit_0_15 : float := S754_finite false 5404319552844595 (-55).
Definition lit_1_2 : float := S754_finite false 5404319552844595 (-52).

(** [is_nearest num den f]: [f] is a valid binary64 number within half
    a unit in the last place of the rational [num / den], so it is what
    the decimal literal [num / den] denotes. *)
Definition is_nearest (num den : Z) (f : float) : bool :=
  match f with
  | S754_zero _ => Z.eqb num 0
  | S754_finite s m e =>
      valid_binary prec emax f
      && Z.eqb (Zdigits2 (Zpos m)) prec
      && (let v := if s then Z.neg m else Z.pos m in
          if Z.leb 0 e
          then Z.leb (2 * Z.abs (v * 2 ^ e * den - num)) (2 ^ e * den)
          else Z.leb (2 * Z.abs (v * den - num * 2 ^ (- e))) den)
  | _ => false
  end.

(** The integer a float is equal to, when there is one: Python's
    [1.0 == 1] and [hash(1.0) == hash(1)]. *)
Definition integral_value (f : float) : option Z :=
  match f with
  | S754_zero _ => Some 0
  | S754_finite s m e =>
      let v := if s then Z.neg m else Z.pos m in
      if Z.leb 0 e then Some (v * 2 ^ e)
      else if Z.eqb (Z.pos m mod 2 ^ (- e)) 0 then Some (v / 2 ^ (- e))
      else None
  | _ => None
  end.

(** Truth value of a float: everything but the two zeros. *)
Definition truthy (f : float) : bool :=
  match f with S754_zero _ => false | _ => true end.

End F64.

(* ===================================================================== *)
(** ** JSON values of a request body *)
(* ===================================================================== *)

#[local] Unset Elimination Schemes.
Inductive json : Type :=
  | JNull
  | JBool (b : bool)
  | JInt (z : Z)
  | JFloat (f : F64.float)
  | JStr (s : string)
  | JArr (l : list json)
  | JObj (l : list (string * json)).

(** Python truth value, as tested by [if backtest_id:]. *)
Definition truthy (v : json) : bool :=
  match v with
  | JNull => false
  | JBool b => b
  | JInt z => negb (Z.eqb z 0)
  | JFloat f => F64.truthy f
  | JStr s => negb (String.eqb s "")
  | JArr l => match l with [] => false | _ => true end
  | JObj l => match l with [] => false | _ => true end
  end.

(** [v == None]. *)
Definition is_none (v : json) : bool :=
  match v with JNull => true | _ => false end.

(** Lists and dicts cannot be hashed. *)
Definition hashable (v : json) : bool :=
  match v with JArr _ | JObj _ => false | _ => true end.

(** The string a value equals as a dictionary key, if any. *)
Definition as_str_key (v : json) : option string :=
  match v with JStr s => Some s | _ => None end.

(** The integer a value equals as a dictionary key, if any:
    [True == 1], [1.0 == 1]. *)
Definition as_int_key (v : json) : option Z :=
  match v with
  | JInt z => Some z
  | JBool b => Some (Z.b2z b)
  | JFloat f => F64.integral_value f
  | _ => None
  end.

(* ===================================================================== *)
(** ** Python dictionaries: insertion-ordered association lists *)
(* ===================================================================== *)

(** [backtests.values()] is enumerated by [read_backtest], so the order
    of insertion is kept: assigning to an existing key updates it in
    place, assigning to a new key appends it. *)

Section Dict.
Context {K V : Type} `{EqDecision K}.

Definition dict := list (K * V).

Fixpoint dict_get (d : dict) (k : K) : option V :=
  match d with
  | [] => None
  | (k', v) :: d' => if decide (k' = k) then Some v else dict_get d' k
  end.

Fixpoint dict_set (d : dict) (k : K) (v : V) : dict :=
  match d with
  | [] => [(k, v)]
  | (k', v') :: d' =>
      if decide (k' = k) then (k, v) :: d' else (k', v') :: dict_set d' k v
  end.

Definition dict_mem (d : dict) (k : K) : bool :=
  match dict_get d k with Some _ => true | None => false end.

Definition dict_keys (d : dict) : list K := d.*1.
Definition dict_values (d : dict) : list V := d.*2.
Definition dict_len (d : dict) : Z := Z.of_nat (List.length d).

End Dict.

Arguments dict : clear implicits.

(** [d.get(key)]: [None] when the key is missing. *)
Definition get (data : dict string json) (key : string) : json :=
  default JNull (dict_get data key).

(** [d.get(key, dflt)]. *)
Definition get_default (data : dict string json) (key : string) (dflt : json) : json :=
  default dflt (dict_get data key).

(** Python's [==] on JSON values: numbers compare by value across
    [bool], [int] and [float]; lists element by element; dicts key by
    key. *)
Definition num_eq (a b : json) : bool :=
  match a, b with
  | JFloat f, JFloat g => F64.eqb f g
  | JFloat f, _ =>
      match F64.integral_value f, as_int_key b with
      | Some x, Some y => Z.eqb x y
      | _, _ => false
      end
  | _, JFloat g =>
      match as_int_key a, F64.integral_value g with
      | Some x, Some y => Z.eqb x y
      | _, _ => false
      end
  | _, _ =>
      match as_int_key a, as_int_key b with
      | Some x, Some y => Z.eqb x y
      | _, _ => false
      end
  end.

Fixpoint py_eq (a b : json) {struct a} : bool :=
  match a, b with
  | JNull, JNull => true
  | JStr s, JStr t => String.eqb s t
  | JArr l, JArr l' =>
      (fix all2 (l : list json) (l' : list json) {struct l} : bool :=
         match l, l' with
         | [], [] => true
         | x :: l, y :: l' => py_eq x y && all2 l l'
         | _, _ => false
         end) l l'
  | JObj l, JObj l' =>
      Nat.eqb (List.length l) (List.length l')
      && (fix all (l : list (string * json)) {struct l} : bool :=
            match l with
            | [] => true
            | (k, v) :: l =>
                match dict_get l' k with
                | Some v' => py_eq v v'
                | None => false
                end && all l
            end) l
  | (JBool _ | JInt _ | JFloat _), (JBool _ | JInt _ | JFloat _) => num_eq a b
  | _, _ => false
  end.

(* ===================================================================== *)
(** ** Records held in the stores *)
(* ===================================================================== *)

Module Project.
Record info := {
  projectId : Z;
  name : json;
  language : json;
  created : string;
  modified : string }.
End Project.

Module File.
Record info := {
  name : json;
  content : json;
  modified : string }.
End File.

Module Compile.
Record info := {
  compileId : string;
  state : string;
  logs : list string;
  success : bool;
  errors : list string }.

(** [compiles[compile_id]["state"] = v] on the record. *)
Definition set_state (v : string) (c : info) : info :=
  {| compileId := compileId c; state := v; logs := logs c;
     success := success c; errors := errors c |}.

(** [compiles[compile_id]["logs"].append(line)] on the record. *)
Definition append_log (line : string) (c : info) : info :=
  {| compileId := compileId c; state := state c; logs := logs c ++ [line];
     success := success c; errors := errors c |}.
End Compile.

Module Backtest.
Record trade_statistics := {
  TotalNumberOfTrades : Z;
  WinRate : F64.float }.

Record portfolio_statistics := {
  TotalNetProfit : F64.float;
  SharpeRatio : F64.float }.

Record total_performance := {
  TradeStatistics : trade_statistics;
  PortfolioStatistics : portfolio_statistics }.

Record result_t := {
  TotalPerformance : total_performance;
  Charts : dict string json;
  Orders : dict string json;
  Statistics : dict string json }.

Record info := {
  name : json;
  note : string;
  backtestId : string;
  completed : bool;
  progress : F64.float;
  result : result_t;
  error : string;
  stacktrace : string;
  created : string;
  success : bool;
  errors : list string }.

Definition set_completed (v : bool) (b : info) : info :=
  {| name := name b; note := note b; backtestId := backtestId b;
     completed := v; progress := progress b; result := result b;
     error := error b; stacktrace := stacktrace b; created := created b;
     success := success b; errors := errors b |}.

Definition set_progress (v : F64.float) (b : info) : info :=
  {| name := name b; note := note b; backtestId := backtestId b;
     completed := completed b; progress := v; result := result b;
     error := error b; stacktrace := stacktrace b; created := created b;
     success := success b; errors := errors b |}.

Definition set_result (v : result_t) (b : info) : info :=
  {| name := name b; note := note b; backtestId := backtestId b;
     completed := completed b; progress := progress b; result := v;
     error := error b; stacktrace := stacktrace b; created := created b;
     success := success b; errors := errors b |}.

Definition set_TradeStatistics (v : trade_statistics) (r : result_t) : result_t :=
  {| TotalPerformance :=
       {| TradeStatistics := v;
          PortfolioStatistics := PortfolioStatistics (TotalPerformance r) |};
     Charts := Charts r; Orders := Orders r; Statistics := Statistics r |}.

Definition set_PortfolioStatistics (v : portfolio_statistics) (r : result_t) : result_t :=
  {| TotalPerformance :=
       {| TradeStatistics := TradeStatistics (TotalPerformance r);
          PortfolioStatistics := v |};
     Charts := Charts r; Orders := Orders r; Statistics := Statistics r |}.

Definition trades (b : info) : trade_statistics :=
  TradeStatistics (TotalPerformance (result b)).
Definition portfolio (b : info) : portfolio_statistics :=
  PortfolioStatistics (TotalPerformance (result b)).

(** The four assignments into the nested result dictionaries. *)
Definition set_TotalNumberOfTrades (v : Z) (b : info) : info :=
  set_result
    (set_TradeStatistics
       {| TotalNumberOfTrades := v; WinRate := WinRate (trades b) |}
       (result b)) b.

Definition set_WinRate (v : F64.float) (b : info) : info :=
  set_result
    (set_TradeStatistics
       {| TotalNumberOfTrades := TotalNumberOfTrades (trades b); WinRate := v |}
       (result b)) b.

Definition set_TotalNetProfit (v : F64.float) (b : info) : info :=
  set_result
    (set_PortfolioStatistics
       {| TotalNetProfit := v; SharpeRatio := SharpeRatio (portfolio b) |}
       (result b)) b.

Definition set_SharpeRatio (v : F64.float) (b : info) : info :=
  set_result
    (set_PortfolioStatistics
       {| TotalNetProfit := TotalNetProfit (portfolio b); SharpeRatio := v |}
       (result b)) b.

Definition result_to_json (r : result_t) : json :=
  JObj
    [("TotalPerformance",
      JObj
        [("TradeStatistics",
          JObj
            [("TotalNumberOfTrades",
              JInt (TotalNumberOfTrades (TradeStatistics (TotalPerformance r))));
             ("WinRate", JFloat (WinRate (TradeStatistics (TotalPerformance r))))]);
         ("PortfolioStatistics",
          JObj
            [("TotalNetProfit",
              JFloat (TotalNetProfit (PortfolioStatistics (TotalPerformance r))));
             ("SharpeRatio",
              JFloat (SharpeRatio (PortfolioStatistics (TotalPerformance r))))])]);
     ("Charts", JObj (Charts r));
     ("Orders", JObj (Orders r));
     ("Statistics", JObj (Statistics r))].

(** The record as the dictionary it is in the source: its items in
    the order of the literal in [create_backtest]. *)
Definition items (b : info) : dict string json :=
  [("name", name b);
   ("note", JStr (note b));
   ("backtestId", JStr (backtestId b));
   ("completed", JBool (completed b));
   ("progress", JFloat (progress b));
   ("result", result_to_json (result b));
   ("error", JStr (error b));
   ("stacktrace", JStr (stacktrace b));
   ("created", JStr (created b));
   ("success", JBool (success b));
   ("errors", JArr (map JStr (errors b)))].
End Backtest.

(* ===================================================================== *)
(** ** The shared store, runner threads and the world *)
(* ===================================================================== *)

Record store := {
  projects : dict Z Project.info;
  files : dict Z (list File.info);
  compiles : dict string Compile.info;
  backtests : dict string Backtest.info }.

Definition set_projects (v : dict Z Project.info) (s : store) : store :=
  {| projects := v; files := files s; compiles := compiles s; backtests := backtests s |}.
Definition set_files (v : dict Z (list File.info)) (s : store) : store :=
  {| projects := projects s; files := v; compiles := compiles s; backtests := backtests s |}.
Definition set_compiles (v : dict string Compile.info) (s : store) : store :=
  {| projects := projects s; files := files s; compiles := v; backtests := backtests s |}.
Definition set_backtests (v : dict string Backtest.info) (s : store) : store :=
  {| projects := projects s; files := files s; compiles := compiles s; backtests := v |}.

(** A runner is the closure handed to [threading.Thread]: the body and
    the job id it captured. *)
Inductive runner :=
  | CompileRunner (compile_id : string)
  | BacktestRunner (backtest_id : string).

#[global] Instance runner_eq_dec : EqDecision runner.
Proof.
  intros [a|a] [b|b];
    try (right; discriminate);
    (destruct (decide (a = b)) as [->|Hne]; [left; reflexivity | right; congruence]).
Defined.

Inductive exn := TypeError | KeyError.

(** A thread: its runner, the number of instructions it has executed and
    the exception that ended it, if one did. *)
Record thread := {
  th_runner : runner;
  th_pc : nat;
  th_exn : option exn }.

Record world := {
  w_store : store;
  w_threads : list thread }.

Definition init_store : store :=
  {| projects := []; files := []; compiles := []; backtests := [] |}.
Definition init_world : world :=
  {| w_store := init_store; w_threads := [] |}.

(* ===================================================================== *)
(** ** The handler monad: shared world and exceptions *)
(* ===================================================================== *)

Inductive outcome (A : Type) : Type :=
  | Ok (a : A)
  | Raise (e : exn).
Arguments Ok {A} a.
Arguments Raise {A} e.

Definition M (A : Type) : Type := world → outcome A * world.

#[global] Instance M_ret : MRet M := λ A a w, (Ok a, w).

#[global] Instance M_bind : MBind M :=
  λ A B k m w,
    match m w with
    | (Ok a, w') => k a w'
    | (Raise e, w') => (Raise e, w')
    end.

(** Read the store, possibly raising. *)
Definition reads {A} (f : store → outcome A) : M A := λ w, (f (w_store w), w).

Definition gets {A} (f : store → A) : M A := reads (λ s, Ok (f s)).

Definition modify (f : store → store) : M unit :=
  λ w, (Ok tt, {| w_store := f (w_store w); w_threads := w_threads w |}).

(** [threading.Thread(target=r).start()]. *)
Definition start_thread (r : runner) : M unit :=
  λ w, (Ok tt,
        {| w_store := w_store w;
           w_threads :=
             w_threads w ++ [{| th_runner := r; th_pc := 0%nat; th_exn := None |}] |}).

(** [key in d] for a JSON value [key]: unhashable values raise
    [TypeError]; otherwise the key is looked up as the dictionary key it
    is equal to. *)
Definition contains {K V} `{EqDecision K}
    (as_key : json → option K) (key : json) (d : dict K V) : outcome bool :=
  if hashable key
  then Ok (match as_key key with Some k => dict_mem d k | None => false end)
  else Raise TypeError.

(** [d[key]] for a JSON value [key]. *)
Definition getitem {K V} `{EqDecision K}
    (as_key : json → option K) (key : json) (d : dict K V) : outcome V :=
  if hashable key
  then match as_key key ≫= dict_get d with
       | Some v => Ok v
       | None => Raise KeyError
       end
  else Raise TypeError.

(* ===================================================================== *)
(** ** Responses *)
(* ===================================================================== *)

Inductive payload :=
  | ErrorPayload (success : bool) (errors : list string)
  | ProjectsPayload (success : bool) (projects : list Project.info) (errors : list string)
  | CompilePayload (c : Compile.info)
  | BacktestPayload (b : Backtest.info)
  | BacktestsPayload (success : bool) (backtests : list Backtest.info) (errors : list string).

(* ===================================================================== *)
(** ** Handlers *)
(* ===================================================================== *)

(** [create_project]: the two timestamps are the two readings of
    [datetime.datetime.now()]. *)
Definition create_project (data : dict string json) (now1 now2 : string) : M payload :=
  let name := get_default data "name" (JStr "Untitled Project") in
  let language := get_default data "language" (JStr "C#") in
  n ← gets (λ s, dict_len (projects s)) ;
  let project_id := n + 1 in
  let project :=
    {| Project.projectId := project_id; Project.name := name;
       Project.language := language;
       Project.created := now1; Project.modified := now2 |} in
  modify (λ s, set_projects (dict_set (projects s) project_id project) s) ;;
  modify (λ s, set_files (dict_set (files s) project_id []) s) ;;
  mret (ProjectsPayload true [project] []).

(** The record built by [create_compile]. *)
Definition new_compile (compile_id : string) : Compile.info :=
  {| Compile.compileId := compile_id;
     Compile.state := "InQueue";
     Compile.logs := ["Compilation started"];
     Compile.success := true;
     Compile.errors := [] |}.

(** [create_compile]; [uuid] is the value of [str(uuid.uuid4())]. *)
Definition create_compile (data : dict string json) (uuid : string) : M payload :=
  let project_id := get data "projectId" in
  known ← reads (λ s, contains as_int_key project_id (projects s)) ;
  if negb known then mret (ErrorPayload false ["Project not found"])
  else
    let compile_id := uuid in
    let compile_info := new_compile compile_id in
    modify (λ s, set_compiles (dict_set (compiles s) compile_id compile_info) s) ;;
    start_thread (CompileRunner compile_id) ;;
    c ← reads (λ s, getitem as_str_key (JStr compile_id) (compiles s)) ;
    mret (CompilePayload c).

Definition read_compile (data : dict string json) : M payload :=
  let project_id := get data "projectId" in
  let compile_id := get data "compileId" in
  known ← reads (λ s, contains as_str_key compile_id (compiles s)) ;
  if negb known then mret (ErrorPayload false ["Compile job not found"])
  else
    c ← reads (λ s, getitem as_str_key compile_id (compiles s)) ;
    mret (CompilePayload c).

(** The record built by [create_backtest]. *)
Definition new_backtest (backtest_name : json) (backtest_id now : string) : Backtest.info :=
  {| Backtest.name := backtest_name;
     Backtest.note := "";
     Backtest.backtestId := backtest_id;
     Backtest.completed := false;
     Backtest.progress := F64.lit_0_0;
     Backtest.result :=
       {| Backtest.TotalPerformance :=
            {| Backtest.TradeStatistics :=
                 {| Backtest.TotalNumberOfTrades := 0;
                    Backtest.WinRate := F64.lit_0_0 |};
               Backtest.PortfolioStatistics :=
                 {| Backtest.TotalNetProfit := F64.lit_0_0;
                    Backtest.SharpeRatio := F64.lit_0_0 |} |};
          Backtest.Charts := [];
          Backtest.Orders := [];
          Backtest.Statistics := [] |};
     Backtest.error := "";
     Backtest.stacktrace := "";
     Backtest.created := now;
     Backtest.success := true;
     Backtest.errors := [] |}.

(** [create_backtest]; [uuid] is the value of [str(uuid.uuid4())] and
    [now] that of [datetime.datetime.now().isoformat()]. *)
Definition create_backtest (data : dict string json) (uuid now : string) : M payload :=
  let project_id := get data "projectId" in
  let compile_id := get data "compileId" in
  let backtest_name := get_default data "backtestName" (JStr "Untitled Backtest") in
  known ← reads (λ s, contains as_int_key project_id (projects s)) ;
  if negb known then mret (ErrorPayload false ["Project not found"])
  else
    let backtest_id := uuid in
    let backtest_info := new_backtest backtest_name backtest_id now in
    modify (λ s, set_backtests (dict_set (backtests s) backtest_id backtest_info) s) ;;
    start_thread (BacktestRunner backtest_id) ;;
    b ← reads (λ s, getitem as_str_key (JStr backtest_id) (backtests s)) ;
    mret (BacktestPayload b).

Definition read_backtest (data : dict string json) : M payload :=
  let project_id := get data "projectId" in
  let backtest_id := get data "backtestId" in
  if truthy backtest_id then
    known ← reads (λ s, contains as_str_key backtest_id (backtests s)) ;
    if known : bool then
      b ← reads (λ s, getitem as_str_key backtest_id (backtests s)) ;
      mret (BacktestPayload b)
    else mret (ErrorPayload false ["Backtest not found"])
  else
    project_backtests ←
      gets (λ s, filter (λ bt, py_eq (get (Backtest.items bt) "projectId") project_id = true)
                        (dict_values (backtests s))) ;
    mret (BacktestsPayload true project_backtests []).

(* ===================================================================== *)
(** ** Runners *)
(* ===================================================================== *)

(** A runner body is a straight-line program over its own job record:
    it sleeps, or it assigns into the record found under its job id. *)
Inductive instr (R : Type) : Type :=
  | Sleep (secs : Z)
  | Write (f : R → R).
Arguments Sleep {R} secs.
Arguments Write {R} f.

(** [range(n)]. *)
Definition range (n : nat) : list Z := map Z.of_nat (seq 0 n).

Definition simulate_compilation : list (instr Compile.info) :=
  [ Sleep 2;
    Write (Compile.set_state "BuildSuccess");
    Write (Compile.append_log "Compilation completed successfully") ].

Definition simulate_backtest : list (instr Backtest.info) :=
  flat_map
    (λ i, [ Sleep 1;
            Write (Backtest.set_progress (F64.div (F64.of_int (i + 1)) F64.lit_10_0)) ])
    (range 10)
  ++ [ Write (Backtest.set_completed true);
       Write (Backtest.set_progress F64.lit_1_0);
       Write (Backtest.set_TotalNumberOfTrades 25);
       Write (Backtest.set_WinRate F64.lit_0_68);
       Write (Backtest.set_TotalNetProfit F64.lit_0_15);
       Write (Backtest.set_SharpeRatio F64.lit_1_2) ].

(** The effect of one instruction on a record. *)
Definition apply_instr {R} (r : R) (i : instr R) : R :=
  match i with
  | Sleep _ => r
  | Write f => f r
  end.

(** The record after the first [pc] instructions of a program. *)
Definition record_after {R} (prog : list (instr R)) (pc : nat) (r : R) : R :=
  fold_left apply_instr (take pc prog) r.

(** One instruction on the store: [d[id][...] = ...] looks the record up
    under the id, which raises [KeyError] when it is missing. *)
Definition exec_instr {R} (i : instr R) (id : string) (d : dict string R)
    : outcome (dict string R) :=
  match i with
  | Sleep _ => Ok d
  | Write f =>
      match dict_get d id with
      | Some r => Ok (dict_set d id (f r))
      | None => Raise KeyError
      end
  end.

Definition advance (th : thread) : thread :=
  {| th_runner := th_runner th; th_pc := S (th_pc th); th_exn := th_exn th |}.

Definition crash (e : exn) (th : thread) : thread :=
  {| th_runner := th_runner th; th_pc := th_pc th; th_exn := Some e |}.

Definition program_length (r : runner) : nat :=
  match r with
  | CompileRunner _ => List.length simulate_compilation
  | BacktestRunner _ => List.length simulate_backtest
  end.

(** A thread is finished when it has run all of its program. *)
Definition finished (th : thread) : bool :=
  Nat.eqb (th_pc th) (program_length (th_runner th)) && negb (bool_decide (is_Some (th_exn th))).

(** The next instruction of a thread; [None] when the thread has ended. *)
Definition thread_step (th : thread) (s : store) : option (thread * store) :=
  match th_exn th with
  | Some _ => None
  | None =>
      match th_runner th with
      | CompileRunner compile_id =>
          i ← simulate_compilation !! th_pc th ;
          match exec_instr i compile_id (compiles s) with
          | Ok d => Some (advance th, set_compiles d s)
          | Raise e => Some (crash e th, s)
          end
      | BacktestRunner backtest_id =>
          i ← simulate_backtest !! th_pc th ;
          match exec_instr i backtest_id (backtests s) with
          | Ok d => Some (advance th, set_backtests d s)
          | Raise e => Some (crash e th, s)
          end
      end
  end.

(* ===================================================================== *)
(** ** Requests, scheduler events and runs *)
(* ===================================================================== *)

Inductive request :=
  | CreateProject (data : dict string json) (now1 now2 : string)
  | CreateCompile (data : dict string json) (uuid : string)
  | ReadCompile (data : dict string json)
  | CreateBacktest (data : dict string json) (uuid now : string)
  | ReadBacktest (data : dict string json).

Definition handle (r : request) : M payload :=
  match r with
  | CreateProject data now1 now2 => create_project data now1 now2
  | CreateCompile data uuid => create_compile data uuid
  | ReadCompile data => read_compile data
  | CreateBacktest data uuid now => create_backtest data uuid now
  | ReadBacktest data => read_backtest data
  end.

(** What [str(uuid.uuid4())] can return: 36 characters, and a value not
    handed out before for a job of the same kind. *)
Definition is_uuid (u : string) : bool := Nat.eqb (String.length u) 36.

Definition uuid_ok (r : request) (s : store) : bool :=
  match r with
  | CreateCompile _ uuid => is_uuid uuid && negb (dict_mem (compiles s) uuid)
  | CreateBacktest _ uuid _ => is_uuid uuid && negb (dict_mem (backtests s) uuid)
  | _ => true
  end.

(** An event of the scheduler: a request is handled, or the [i]-th
    thread executes its next instruction.  A handler runs as one step
    between the instructions of the runners; a request that creates a
    job is an event only with a uuid that [uuid.uuid4()] could return. *)
Inductive event :=
  | Request (r : request)
  | Tick (i : nat).

Definition exec (ev : event) (w : world) : option world :=
  match ev with
  | Request r =>
      if uuid_ok r (w_store w) then Some (snd (handle r w)) else None
  | Tick i =>
      th ← w_threads w !! i ;
      '(th', s') ← thread_step th (w_store w) ;
      Some {| w_store := s'; w_threads := <[i := th']> (w_threads w) |}
  end.

Fixpoint run (tr : list event) (w : world) : option world :=
  match tr with
  | [] => Some w
  | ev :: tr' => exec ev w ≫= run tr'
  end.

(** The worlds the server can be in. *)
Definition reachable (w : world) : Prop := ∃ tr, run tr init_world = Some w.

(** The response of a request in a world. *)
Definition response (r : request) (w : world) : outcome payload := fst (handle r w).

(* ===================================================================== *)
(** ** The invariant of reachable worlds *)
(* ===================================================================== *)

(** A live thread has run a prefix of its program over the record that
    was created with it, and that record is what the store holds. *)
Definition thread_ok (s : store) (th : thread) : Prop :=
  th_exn th = None
  ∧ match th_runner th with
    | CompileRunner compile_id =>
        (th_pc th ≤ List.length simulate_compilation)%nat
        ∧ dict_get (compiles s) compile_id
          = Some (record_after simulate_compilation (th_pc th) (new_compile compile_id))
    | BacktestRunner backtest_id =>
        (th_pc th ≤ List.length simulate_backtest)%nat
        ∧ ∃ name now,
            dict_get (backtests s) backtest_id
            = Some (record_after simulate_backtest (th_pc th)
                      (new_backtest name backtest_id now))
    end.

Record inv (w : world) : Prop := {
  inv_nodup : NoDup (th_runner <$> w_threads w);
  inv_threads : ∀ i th, w_threads w !! i = Some th → thread_ok (w_store w) th;
  inv_compiles : ∀ id, id ∈ dict_keys (compiles (w_store w)) →
    is_uuid id = true ∧ CompileRunner id ∈ th_runner <$> w_threads w;
  inv_backtests : ∀ id, id ∈ dict_keys (backtests (w_store w)) →
    is_uuid id = true ∧ BacktestRunner id ∈ th_runner <$> w_threads w }.

(* ===================================================================== *)
(** ** Vocabulary of the properties *)
(* ===================================================================== *)

(** The result as [create_backtest] writes it. *)
Definition zero_result (r : Backtest.result_t) : Prop :=
  Backtest.TotalNumberOfTrades (Backtest.TradeStatistics (Backtest.TotalPerformance r)) = 0
  ∧ Backtest.WinRate (Backtest.TradeStatistics (Backtest.TotalPerformance r)) = F64.lit_0_0
  ∧ Backtest.TotalNetProfit (Backtest.PortfolioStatistics (Backtest.TotalPerformance r))
    = F64.lit_0_0
  ∧ Backtest.SharpeRatio (Backtest.PortfolioStatistics (Backtest.TotalPerformance r))
    = F64.lit_0_0.

(** The result once [simulate_backtest] has written all of it. *)
Definition terminal_result (r : Backtest.result_t) : Prop :=
  Backtest.TotalNumberOfTrades (Backtest.TradeStatistics (Backtest.TotalPerformance r)) = 25
  ∧ Backtest.WinRate (Backtest.TradeStatistics (Backtest.TotalPerformance r)) = F64.lit_0_68
  ∧ Backtest.TotalNetProfit (Backtest.PortfolioStatistics (Backtest.TotalPerformance r))
    = F64.lit_0_15
  ∧ Backtest.SharpeRatio (Backtest.PortfolioStatistics (Backtest.TotalPerformance r))
    = F64.lit_1_2.

(** The progress values 0.0, 0.1, ..., 1.0: entry [k] is the progress
    after [k] ticks. *)
Definition tick_progress : list F64.float :=
  [ F64.lit_0_0; F64.lit_0_1; F64.lit_0_2; F64.lit_0_3; F64.lit_0_4; F64.lit_0_5;
    F64.lit_0_6; F64.lit_0_7; F64.lit_0_8; F64.lit_0_9; F64.lit_1_0 ].

(** Whether a JSON value is a key of the project store: equal, as a
    dictionary key, to the id of a stored project. *)
Definition is_project_key (v : json) (s : store) : bool :=
  match as_int_key v with
  | Some k => dict_mem (projects s) k
  | None => false
  end.


(** A sample session: one project, then one job of each kind for it. *)
Definition uuid1 : string := "123e4567-e89b-42d3-a456-426614174000".
Definition uuid2 : string := "9b2c1f0e-7d3a-4c55-8e21-0a1b2c3d4e5f".

Definition session : list event :=
  [ Request (CreateProject [("name", JStr "Test Algorithm"); ("language", JStr "C#")]
               "2024-01-01T00:00:00" "2024-01-01T00:00:00");
    Request (CreateBacktest [("projectId", JInt 1); ("backtestName", JStr "Test Backtest")]
               uuid1 "2024-01-01T00:00:01");
    Request (CreateCompile [("projectId", JInt 1)] uuid2) ].

(** The world of the sample session after the backtest runner (thread 0)
    has executed [n] instructions and the compile runner (thread 1) [m]. *)
Definition session_world (n m : nat) : world :=
  default init_world (run (session ++ replicate n (Tick 0) ++ replicate m (Tick 1)) init_world).


(** The records of the two jobs of the sample session in that world. *)
Definition session_backtest (n m : nat) : Backtest.info :=
  default (new_backtest JNull "" "")
    (dict_get (backtests (w_store (session_world n m))) uuid1).

Definition session_compile (n m : nat) : Compile.info :=
  default (new_compile "")
    (dict_get (compiles (w_store (session_world n m))) uuid2).

(* ===================================================================== *)
(** ** The remaining handlers *)
(* ===================================================================== *)

(** The token check [authenticate] at the top of the module, on the
    value of [request.headers.get("Authorization")].  (The route handler
    of the same name further down is another function and is not
    modelled.) *)
Definition VALID_TOKENS : list string := ["demo-token-123"; "test-token-456"].

(** [s[n:]]. *)
Fixpoint slice_from (n : nat) (s : string) : string :=
  match n, s with
  | O, _ => s
  | S n', String _ s' => slice_from n' s'
  | S _, EmptyString => EmptyString
  end.

Definition authenticate (auth_header : option string) : bool :=
  match auth_header with
  | None => false
  | Some auth_header =>
      if String.eqb auth_header "" then false
      else if String.prefix "Bearer " auth_header then
        let token := slice_from 7 auth_header in
        bool_decide (token ∈ VALID_TOKENS)
      else false
  end.

(** [a or b]. *)
Definition py_or (a b : json) : json := if truthy a then a else b.

Module Live.
Record info := {
  projectId : json;
  deployId : json;
  status : json;
  launched : string;
  stopped : json;
  success : bool;
  errors : list string }.
End Live.

(** The responses of the handlers below; [Payload] carries the shapes
    the job handlers already use. *)
Inductive reply :=
  | Payload (p : payload)
  | FilesPayload (success : bool) (files : list File.info) (errors : list string)
  | LivePayload (l : Live.info)
  | AlgorithmsPayload (success : bool) (Algorithms : list Live.info) (errors : list string)
  | HealthPayload (status timestamp : string) (projects_count backtests_count : Z).

(** Change the store, possibly raising; a raise leaves it as it was. *)
Definition updates (f : store → outcome store) : M unit :=
  λ w, match f (w_store w) with
       | Ok s => (Ok tt, {| w_store := s; w_threads := w_threads w |})
       | Raise e => (Raise e, w)
       end.

(** [d[key].append(x)] for a JSON value [key]. *)
Definition append_item {K V} `{EqDecision K}
    (as_key : json → option K) (key : json) (x : V) (d : dict K (list V))
    : outcome (dict K (list V)) :=
  if hashable key
  then match as_key key with
       | Some k =>
           match dict_get d k with
           | Some l => Ok (dict_set d k (l ++ [x]))
           | None => Raise KeyError
           end
       | None => Raise KeyError
       end
  else Raise TypeError.

Definition read_projects (data : dict string json) : M reply :=
  let project_id := get data "projectId" in
  if truthy project_id then
    known ← reads (λ s, contains as_int_key project_id (projects s)) ;
    if known : bool then
      p ← reads (λ s, getitem as_int_key project_id (projects s)) ;
      mret (Payload (ProjectsPayload true [p] []))
    else mret (Payload (ProjectsPayload false [] ["Project not found"]))
  else
    ps ← gets (λ s, dict_values (projects s)) ;
    mret (Payload (ProjectsPayload true ps [])).

Definition create_file (data : dict string json) (now : string) : M reply :=
  let project_id := get data "projectId" in
  let name := get data "name" in
  let content := get_default data "content" (JStr "") in
  known ← reads (λ s, contains as_int_key project_id (projects s)) ;
  if negb known then mret (FilesPayload false [] ["Project not found"])
  else
    let file_info :=
      {| File.name := name; File.content := content; File.modified := now |} in
    updates (λ s, match append_item as_int_key project_id file_info (files s) with
                  | Ok d => Ok (set_files d s)
                  | Raise e => Raise e
                  end) ;;
    fs ← reads (λ s, getitem as_int_key project_id (files s)) ;
    mret (FilesPayload true fs []).

Definition read_files (data : dict string json) : M reply :=
  let project_id := get data "projectId" in
  let file_name := get data "fileName" in
  known ← reads (λ s, contains as_int_key project_id (projects s)) ;
  if negb known then mret (FilesPayload false [] ["Project not found"])
  else
    project_files ← reads (λ s, getitem as_int_key project_id (files s)) ;
    if truthy file_name then
      match List.find (λ file_info, py_eq (File.name file_info) file_name) project_files with
      | Some file_info => mret (FilesPayload true [file_info] [])
      | None => mret (FilesPayload false [] ["File not found"])
      end
    else mret (FilesPayload true project_files []).

(** [create_live_algorithm]; [uuid] and [now] as in [create_backtest]. *)
Definition create_live_algorithm (data : dict string json) (uuid now : string) : M reply :=
  let project_id := get data "projectId" in
  let compile_id := get data "compileId" in
  known ← reads (λ s, contains as_int_key project_id (projects s)) ;
  if negb known then mret (Payload (ErrorPayload false ["Project not found"]))
  else
    let deploy_id := uuid in
    let live_info :=
      {| Live.projectId := project_id;
         Live.deployId := JStr deploy_id;
         Live.status := JStr "Running";
         Live.launched := now;
         Live.stopped := JNull;
         Live.success := true;
         Live.errors := [] |} in
    mret (LivePayload live_info).

Definition read_live_algorithms (data : dict string json) (now : string) : M reply :=
  let project_id := get data "projectId" in
  let deploy_id := get data "deployId" in
  let status := get data "status" in
  let mock_live :=
    {| Live.projectId := py_or project_id (JInt 1);
       Live.deployId := py_or deploy_id (JStr "demo-deploy-123");
       Live.status := py_or status (JStr "Running");
       Live.launched := now;
       Live.stopped := JNull;
       Live.success := true;
       Live.errors := [] |} in
  mret (AlgorithmsPayload true [mock_live] []).

Definition health_check (now : string) : M reply :=
  n ← gets (λ s, dict_len (projects s)) ;
  m ← gets (λ s, dict_len (backtests s)) ;
  mret (HealthPayload "healthy" now n m).

(* ===================================================================== *)
(** ** The whole interface *)
(* ===================================================================== *)

(** The requests beside those of the job core. *)
Inductive api_request :=
  | ReadProjects (data : dict string json)
  | CreateFile (data : dict string json) (now : string)
  | ReadFiles (data : dict string json)
  | CreateLive (data : dict string json) (uuid now : string)
  | ReadLive (data : dict string json) (now : string)
  | HealthCheck (now : string).

Definition serve (r : api_request) : M reply :=
  match r with
  | ReadProjects data => read_projects data
  | CreateFile data now => create_file data now
  | ReadFiles data => read_files data
  | CreateLive data uuid now => create_live_algorithm data uuid now
  | ReadLive data now => read_live_algorithms data now
  | HealthCheck now => health_check now
  end.

(** A call on the server: an event of the job core, or one of the
    other requests. *)
Inductive call :=
  | Job (ev : event)
  | Api (r : api_request).

Definition exec_call (c : call) (w : world) : option world :=
  match c with
  | Job ev => exec ev w
  | Api r => Some (snd (serve r w))
  end.

Fixpoint run_calls (tr : list call) (w : world) : option world :=
  match tr with
  | [] => Some w
  | c :: tr' => exec_call c w ≫= run_calls tr'
  end.

(** The worlds the server can be in when all of its interface is used. *)
Definition api_reachable (w : world) : Prop := ∃ tr, run_calls tr init_world = Some w.

(** What the project and file stores always look like: project ids are
    1, 2, ..., n in the order of creation, every project has its list of
    files, and a project record carries the id it is stored under. *)
Definition projects_ok (s : store) : Prop :=
  dict_keys (projects s) = Z.of_nat <$> seq 1 (List.length (projects s))
  ∧ dict_keys (files s) = dict_keys (projects s)
  ∧ ∀ k p, dict_get (projects s) k = Some p → Project.projectId p = k.

(** What identifies a backtest record: everything in it but
    [completed], [progress] and the four statistics of the result. *)
Definition backtest_identity (b : Backtest.info) :=
  (Backtest.name b, Backtest.note b, Backtest.backtestId b, Backtest.error b,
   Backtest.stacktrace b, Backtest.created b, Backtest.success b, Backtest.errors b,
   Backtest.Charts (Backtest.result b), Backtest.Orders (Backtest.result b),
   Backtest.Statistics (Backtest.result b)).

(** The number of threads started by [create_backtest]. *)
Definition is_backtest_runner (r : runner) : bool :=
  match r with BacktestRunner _ => true | CompileRunner _ => false end.

Definition backtest_threads (w : world) : nat :=
  List.length (List.filter (λ th, is_backtest_runner (th_runner th)) (w_threads w)).

(** Every thread of the world has finished. *)
Definition all_finished (w : world) : Prop :=
  ∀ i th, w_threads w !! i = Some th → finished th = true.

(** The schedule that runs the threads to their ends one after the
    other: thread 0 first, then thread 1, and so on. *)
Definition remaining (th : thread) : nat :=
  (program_length (th_runner th) - th_pc th)%nat.

Definition finish_all (ths : list thread) : list event :=
  mjoin (imap (λ i th, replicate (remaining th) (Tick i)) ths).

(** A sample of the whole interface: the session, then two files of the
    same name for its project. *)
Definition file_session : list call :=
  (Job <$> session)
  ++ [ Api (CreateFile [("projectId", JInt 1); ("name", JStr "Main.cs");
                        ("content", JStr "first")] "2024-01-01T00:00:03");
       Api (CreateFile [("projectId", JInt 1); ("name", JStr "Main.cs");
                        ("content", JStr "second")] "2024-01-01T00:00:04") ].

Definition file_world : world :=
  default init_world (run_calls file_session init_world).


(* ===================================================================== *)
(** * Facts *)
(* ===================================================================== *)

(** ** Dictionaries *)

Section DictFacts.
Context {K V : Type} `{EqDecision K}.
Implicit Types (d : dict K V) (k : K) (v : V).

Lemma dict_get_set_eq d k v : dict_get (dict_set d k v) k = Some v.
Proof.
  induction d as [|[k' v'] d IH]; simpl.
  - by rewrite decide_True.
  - destruct (decide (k' = k)) as [->|Hne]; simpl.
    + by rewrite decide_True.
    + by rewrite decide_False.
Qed.

Lemma dict_get_set_ne d k k' v :
  k ≠ k' → dict_get (dict_set d k v) k' = dict_get d k'.
Proof.
  intros Hne. induction d as [|[k0 v0] d IH]; simpl.
  - by rewrite decide_False.
  - destruct (decide (k0 = k)) as [->|Hne0]; simpl.
    + by rewrite !decide_False.
    + destruct (decide (k0 = k')); [done | apply IH].
Qed.

Lemma dict_mem_true d k : dict_mem d k = true ↔ is_Some (dict_get d k).
Proof.
  unfold dict_mem. destruct (dict_get d k); split; intros H; eauto.
  - discriminate.
  - by destruct H.
Qed.

Lemma dict_mem_false d k : dict_mem d k = false ↔ dict_get d k = None.
Proof. unfold dict_mem. by destruct (dict_get d k). Qed.

Lemma dict_mem_keys d k : dict_mem d k = true ↔ k ∈ dict_keys d.
Proof.
  unfold dict_mem, dict_keys. induction d as [|[k' v'] d IH]; simpl.
  - rewrite elem_of_nil. split; [discriminate | tauto].
  - rewrite elem_of_cons. destruct (decide (k' = k)) as [->|Hne]; [tauto|].
    rewrite IH. split; [tauto | intros [?|?]; [congruence | done]].
Qed.

Lemma dict_keys_set d k v :
  dict_keys (dict_set d k v)
  = if dict_mem d k then dict_keys d else dict_keys d ++ [k].
Proof.
  unfold dict_mem, dict_keys. induction d as [|[k' v'] d IH]; csimpl; [done|].
  destruct (decide (k' = k)) as [->|Hne]; csimpl; [done|].
  rewrite IH. by destruct (dict_get d k).
Qed.

Lemma dict_get_keys d k v : dict_get d k = Some v → k ∈ dict_keys d.
Proof. intros Hk. apply dict_mem_keys, dict_mem_true. by exists v. Qed.

Lemma dict_keys_set_present d k v v' :
  dict_get d k = Some v' → dict_keys (dict_set d k v) = dict_keys d.
Proof.
  intros Hk. rewrite dict_keys_set.
  replace (dict_mem d k) with true; [done|].
  symmetry. apply dict_mem_true. by exists v'.
Qed.

End DictFacts.

(** ** Floats *)

(** The literals are the correctly rounded doubles of their decimals. *)
Lemma literals_correctly_rounded :
  F64.is_nearest 0 1 F64.lit_0_0 = true
  ∧ Forall (λ '(n, f), F64.is_nearest n 10 f = true)
      [(1, F64.lit_0_1); (2, F64.lit_0_2); (3, F64.lit_0_3); (4, F64.lit_0_4);
       (5, F64.lit_0_5); (6, F64.lit_0_6); (7, F64.lit_0_7); (8, F64.lit_0_8);
       (9, F64.lit_0_9); (10, F64.lit_1_0); (100, F64.lit_10_0); (12, F64.lit_1_2)]
  ∧ F64.is_nearest 68 100 F64.lit_0_68 = true
  ∧ F64.is_nearest 15 100 F64.lit_0_15 = true.
Proof. repeat split; repeat constructor; vm_compute; reflexivity. Qed.

(** ** Programs *)

Lemma record_after_0 {R} (prog : list (instr R)) r : record_after prog 0 r = r.
Proof. unfold record_after. by rewrite take_0. Qed.

Lemma record_after_S {R} (prog : list (instr R)) pc i r :
  prog !! pc = Some i →
  record_after prog (S pc) r = apply_instr (record_after prog pc r) i.
Proof.
  intros Hi. unfold record_after.
  rewrite (take_S_r _ _ _ Hi), fold_left_app. done.
Qed.

(** A write through the job id changes the record of that id and no
    other, and leaves the set of keys alone. *)
Lemma exec_instr_present {R} (i : instr R) id (d : dict string R) r :
  dict_get d id = Some r →
  ∃ d', exec_instr i id d = Ok d'
        ∧ dict_get d' id = Some (apply_instr r i)
        ∧ (∀ id', id ≠ id' → dict_get d' id' = dict_get d id')
        ∧ dict_keys d' = dict_keys d.
Proof.
  intros Hr. destruct i as [secs|f]; simpl.
  - exists d. by repeat split.
  - rewrite Hr. eexists. split; [done|]. split; [apply dict_get_set_eq|].
    split; [intros; by apply dict_get_set_ne | by eapply dict_keys_set_present].
Qed.

(** ** Handlers and the frame they leave *)

Lemma is_uuid_truthy u : is_uuid u = true → truthy (JStr u) = true.
Proof. by destruct u. Qed.

Lemma contains_str_true {V} key (d : dict string V) :
  contains as_str_key key d = Ok true →
  ∃ k, key = JStr k ∧ is_Some (dict_get d k).
Proof.
  unfold contains. destruct key; simpl; try discriminate.
  intros [= Hm]. eexists. split; [done|]. by apply dict_mem_true.
Qed.

Lemma read_compile_frame data w : snd (read_compile data w) = w.
Proof.
  unfold read_compile, mbind, M_bind, reads, mret, M_ret.
  destruct (contains _ _ _) as [[]|]; simpl; [|done..].
  by destruct (getitem _ _ _).
Qed.

Lemma read_backtest_frame data w : snd (read_backtest data w) = w.
Proof.
  unfold read_backtest, mbind, M_bind, gets, reads, mret, M_ret.
  destruct (truthy _); [|done].
  destruct (contains _ _ _) as [[]|]; simpl; [|done..].
  by destruct (getitem _ _ _).
Qed.

(** ** Requests preserve the invariant *)

Lemma inv_init : inv init_world.
Proof.
  split; simpl; [constructor | done | ..]; intros id Hid; by apply elem_of_nil in Hid.
Qed.

(** [thread_ok] only looks at the two job stores. *)
Lemma thread_ok_ext s s' th :
  (∀ id, th_runner th = CompileRunner id →
         dict_get (compiles s') id = dict_get (compiles s) id) →
  (∀ id, th_runner th = BacktestRunner id →
         dict_get (backtests s') id = dict_get (backtests s) id) →
  thread_ok s th → thread_ok s' th.
Proof.
  intros Hc Hb [Hexn Hok]. split; [done|].
  destruct (th_runner th) as [id|id].
  - by rewrite Hc.
  - by rewrite Hb.
Qed.

Lemma thread_in_store w i th :
  inv w → w_threads w !! i = Some th →
  match th_runner th with
  | CompileRunner id => id ∈ dict_keys (compiles (w_store w))
  | BacktestRunner id => id ∈ dict_keys (backtests (w_store w))
  end.
Proof.
  intros Hinv Hth. destruct (inv_threads _ Hinv _ _ Hth) as [_ Hok].
  destruct (th_runner th) as [id|id].
  - destruct Hok as [_ Hget]. by eapply dict_get_keys.
  - destruct Hok as [_ (name & now & Hget)]. by eapply dict_get_keys.
Qed.

Lemma create_project_inv data now1 now2 w :
  inv w → inv (snd (create_project data now1 now2 w)).
Proof.
  intros [Hnd Hth Hc Hb]. by split.
Qed.

Lemma fresh_runner_compile w id :
  inv w → dict_mem (compiles (w_store w)) id = false →
  CompileRunner id ∉ th_runner <$> w_threads w.
Proof.
  intros Hinv Hfresh Hin.
  apply list_elem_of_fmap in Hin as (th & Hr & Hin).
  apply list_elem_of_lookup in Hin as [i Hi].
  pose proof (thread_in_store _ _ _ Hinv Hi) as Hk. rewrite <- Hr in Hk.
  apply dict_mem_keys in Hk. congruence.
Qed.

Lemma fresh_runner_backtest w id :
  inv w → dict_mem (backtests (w_store w)) id = false →
  BacktestRunner id ∉ th_runner <$> w_threads w.
Proof.
  intros Hinv Hfresh Hin.
  apply list_elem_of_fmap in Hin as (th & Hr & Hin).
  apply list_elem_of_lookup in Hin as [i Hi].
  pose proof (thread_in_store _ _ _ Hinv Hi) as Hk. rewrite <- Hr in Hk.
  apply dict_mem_keys in Hk. congruence.
Qed.

(** What a creation does to the world: nothing when the project is
    unknown or the membership test raises, and otherwise one new record
    and one new thread. *)
Lemma create_compile_world data uuid w :
  handle (CreateCompile data uuid) w
  = match contains as_int_key (get data "projectId") (projects (w_store w)) with
    | Ok true =>
        (Ok (CompilePayload (new_compile uuid)),
         {| w_store := set_compiles (dict_set (compiles (w_store w)) uuid (new_compile uuid))
                         (w_store w);
            w_threads := w_threads w
              ++ [{| th_runner := CompileRunner uuid; th_pc := 0; th_exn := None |}] |})
    | Ok false => (Ok (ErrorPayload false ["Project not found"]), w)
    | Raise e => (Raise e, w)
    end.
Proof.
  simpl. unfold create_compile, mbind, M_bind, reads, modify, start_thread, mret, M_ret.
  destruct (contains _ _ _) as [[]|]; simpl; [|done..].
  unfold getitem. simpl. by rewrite dict_get_set_eq.
Qed.

Lemma create_backtest_world data uuid now w :
  handle (CreateBacktest data uuid now) w
  = match contains as_int_key (get data "projectId") (projects (w_store w)) with
    | Ok true =>
        let b := new_backtest (get_default data "backtestName" (JStr "Untitled Backtest"))
                   uuid now in
        (Ok (BacktestPayload b),
         {| w_store := set_backtests (dict_set (backtests (w_store w)) uuid b) (w_store w);
            w_threads := w_threads w
              ++ [{| th_runner := BacktestRunner uuid; th_pc := 0; th_exn := None |}] |})
    | Ok false => (Ok (ErrorPayload false ["Project not found"]), w)
    | Raise e => (Raise e, w)
    end.
Proof.
  simpl. unfold create_backtest, mbind, M_bind, reads, modify, start_thread, mret, M_ret.
  destruct (contains _ _ _) as [[]|]; simpl; [|done..].
  unfold getitem. simpl. by rewrite dict_get_set_eq.
Qed.

Lemma create_compile_inv data uuid w :
  inv w → uuid_ok (CreateCompile data uuid) (w_store w) = true →
  inv (snd (handle (CreateCompile data uuid) w)).
Proof.
  intros Hinv Hok. rewrite create_compile_world.
  destruct (contains _ _ _) as [[]|]; simpl; [|done..].
  simpl in Hok. apply andb_true_iff in Hok as [Huuid Hfresh].
  apply negb_true_iff in Hfresh.
  pose proof (fresh_runner_compile _ _ Hinv Hfresh) as Hnew.
  destruct Hinv as [Hnd Hth Hc Hb]. split; simpl.
  - rewrite fmap_app. apply NoDup_app. split; [done|]. split.
    + intros r Hr Hr'. apply list_elem_of_singleton in Hr' as ->. done.
    + apply NoDup_singleton.
  - intros i th Hi. apply lookup_app_Some in Hi as [Hi|[_ Hi]].
    + eapply thread_ok_ext; [| |by eapply Hth]; simpl; [|done].
      intros id Hr. apply dict_get_set_ne. intros ->.
      apply Hnew, list_elem_of_fmap. exists th. split; [done|].
      by eapply list_elem_of_lookup_2.
    + apply list_lookup_singleton_Some in Hi as [_ <-].
      split; [done|]. simpl. split; [lia|].
      by rewrite dict_get_set_eq, record_after_0.
  - intros id. rewrite dict_keys_set, Hfresh, fmap_app, !elem_of_app.
    intros [Hid|Hid].
    + destruct (Hc _ Hid). auto.
    + apply list_elem_of_singleton in Hid as ->. split; [done|].
      right. simpl. by apply list_elem_of_singleton.
  - intros id Hid. destruct (Hb _ Hid). split; [done|].
    rewrite fmap_app, elem_of_app. by left.
Qed.

Lemma create_backtest_inv data uuid now w :
  inv w → uuid_ok (CreateBacktest data uuid now) (w_store w) = true →
  inv (snd (handle (CreateBacktest data uuid now) w)).
Proof.
  intros Hinv Hok. rewrite create_backtest_world.
  destruct (contains _ _ _) as [[]|]; simpl; [|done..].
  simpl in Hok. apply andb_true_iff in Hok as [Huuid Hfresh].
  apply negb_true_iff in Hfresh.
  pose proof (fresh_runner_backtest _ _ Hinv Hfresh) as Hnew.
  destruct Hinv as [Hnd Hth Hc Hb]. split; simpl.
  - rewrite fmap_app. apply NoDup_app. split; [done|]. split.
    + intros r Hr Hr'. apply list_elem_of_singleton in Hr' as ->. done.
    + apply NoDup_singleton.
  - intros i th Hi. apply lookup_app_Some in Hi as [Hi|[_ Hi]].
    + eapply thread_ok_ext; [| |by eapply Hth]; simpl; [done|].
      intros id Hr. apply dict_get_set_ne. intros ->.
      apply Hnew, list_elem_of_fmap. exists th. split; [done|].
      by eapply list_elem_of_lookup_2.
    + apply list_lookup_singleton_Some in Hi as [_ <-].
      split; [done|]. simpl. split; [lia|].
      eexists _, _. by rewrite dict_get_set_eq, record_after_0.
  - intros id Hid. destruct (Hc _ Hid). split; [done|].
    rewrite fmap_app, elem_of_app. by left.
  - intros id. rewrite dict_keys_set, Hfresh, fmap_app, !elem_of_app.
    intros [Hid|Hid].
    + destruct (Hb _ Hid). auto.
    + apply list_elem_of_singleton in Hid as ->. split; [done|].
      right. simpl. by apply list_elem_of_singleton.
Qed.

(** ** Thread steps preserve the invariant *)

Lemma thread_step_compile s th id :
  thread_ok s th → th_runner th = CompileRunner id →
  ∀ th' s', thread_step th s = Some (th', s') →
  ∃ i d', simulate_compilation !! th_pc th = Some i
    ∧ th' = advance th
    ∧ s' = set_compiles d' s
    ∧ dict_get d' id
      = Some (record_after simulate_compilation (S (th_pc th)) (new_compile id))
    ∧ (∀ id', id ≠ id' → dict_get d' id' = dict_get (compiles s) id')
    ∧ dict_keys d' = dict_keys (compiles s).
Proof.
  intros [Hexn Hok] Hr th' s'. unfold thread_step. rewrite Hexn, Hr. rewrite Hr in Hok.
  destruct Hok as [_ Hget].
  destruct (simulate_compilation !! th_pc th) as [i|] eqn:Hi; [|done]. simpl.
  destruct (exec_instr_present i _ _ _ Hget) as (d' & -> & Hd' & Hother & Hkeys).
  intros [= <- <-]. exists i, d'. repeat split; try done.
  by rewrite (record_after_S _ _ _ _ Hi).
Qed.

Lemma thread_step_backtest s th id :
  thread_ok s th → th_runner th = BacktestRunner id →
  ∀ th' s', thread_step th s = Some (th', s') →
  ∃ i d' name now, simulate_backtest !! th_pc th = Some i
    ∧ th' = advance th
    ∧ s' = set_backtests d' s
    ∧ dict_get (backtests s) id
      = Some (record_after simulate_backtest (th_pc th) (new_backtest name id now))
    ∧ dict_get d' id
      = Some (record_after simulate_backtest (S (th_pc th)) (new_backtest name id now))
    ∧ (∀ id', id ≠ id' → dict_get d' id' = dict_get (backtests s) id')
    ∧ dict_keys d' = dict_keys (backtests s).
Proof.
  intros [Hexn Hok] Hr th' s'. unfold thread_step. rewrite Hexn, Hr. rewrite Hr in Hok.
  destruct Hok as [_ (name & now & Hget)].
  destruct (simulate_backtest !! th_pc th) as [i|] eqn:Hi; [|done]. simpl.
  destruct (exec_instr_present i _ _ _ Hget) as (d' & -> & Hd' & Hother & Hkeys).
  intros [= <- <-]. exists i, d', name, now. repeat split; try done.
  by rewrite (record_after_S _ _ _ _ Hi).
Qed.

(** Two threads of a world with the same runner are the same thread. *)
Lemma runner_unique w i j th th' :
  inv w → w_threads w !! i = Some th → w_threads w !! j = Some th' →
  th_runner th = th_runner th' → i = j.
Proof.
  intros Hinv Hi Hj Hr.
  eapply (NoDup_lookup _ i j (th_runner th) (inv_nodup _ Hinv)).
  - by rewrite list_lookup_fmap, Hi.
  - by rewrite list_lookup_fmap, Hj, Hr.
Qed.

Lemma tick_inv i w w' : inv w → exec (Tick i) w = Some w' → inv w'.
Proof.
  intros Hinv. simpl.
  destruct (w_threads w !! i) as [th|] eqn:Hth; [|done]. simpl.
  destruct (thread_step th (w_store w)) as [[th' s']|] eqn:Hstep; [|done]. simpl.
  intros [= <-].
  pose proof (inv_threads _ Hinv _ _ Hth) as Hok.
  assert (th_runner th' = th_runner th ∧ thread_ok s' th'
          ∧ dict_keys (compiles s') = dict_keys (compiles (w_store w))
          ∧ dict_keys (backtests s') = dict_keys (backtests (w_store w))
          ∧ (∀ id, th_runner th ≠ CompileRunner id →
                   dict_get (compiles s') id = dict_get (compiles (w_store w)) id)
          ∧ (∀ id, th_runner th ≠ BacktestRunner id →
                   dict_get (backtests s') id = dict_get (backtests (w_store w)) id))
    as (Hr' & Hok' & Hkc & Hkb & Hoc & Hob).
  { destruct (th_runner th) as [id|id] eqn:Hr.
    - destruct (thread_step_compile _ _ _ Hok Hr _ _ Hstep)
        as (ins & d' & Hins & -> & -> & Hd' & Hother & Hkeys).
      apply lookup_lt_Some in Hins.
      repeat split; simpl; try done.
      + apply Hok.
      + rewrite Hr. split; [simpl in Hins |- *; lia | done].
      + intros id' Hne. apply Hother. congruence.
    - destruct (thread_step_backtest _ _ _ Hok Hr _ _ Hstep)
        as (ins & d' & name & now & Hins & -> & -> & _ & Hd' & Hother & Hkeys).
      apply lookup_lt_Some in Hins.
      repeat split; simpl; try done.
      + apply Hok.
      + rewrite Hr. split; [simpl in Hins |- *; lia | by exists name, now].
      + intros id' Hne. apply Hother. congruence. }
  assert (th_runner <$> <[i:=th']> (w_threads w) = th_runner <$> w_threads w) as Hrs.
  { rewrite list_fmap_insert, Hr'. apply list_insert_id.
    by rewrite list_lookup_fmap, Hth. }
  split; simpl.
  - rewrite Hrs. apply Hinv.
  - intros j th2 Hj. apply list_lookup_insert_Some in Hj as [(-> & <- & _)|[Hne Hj]].
    + done.
    + eapply thread_ok_ext; [| |by eapply (inv_threads _ Hinv)].
      * intros id Hr2. apply Hoc. intros Hr. apply Hne.
        eapply runner_unique; [done..|congruence].
      * intros id Hr2. apply Hob. intros Hr. apply Hne.
        eapply runner_unique; [done..|congruence].
  - rewrite Hrs, Hkc. apply Hinv.
  - rewrite Hrs, Hkb. apply Hinv.
Qed.

Lemma exec_inv ev w w' : inv w → exec ev w = Some w' → inv w'.
Proof.
  intros Hinv. destruct ev as [r|i]; [|by apply tick_inv].
  simpl. destruct (uuid_ok r (w_store w)) eqn:Hok; [|done]. intros [= <-].
  destruct r as [data now1 now2|data uuid|data|data uuid now|data].
  - by apply create_project_inv.
  - by apply create_compile_inv.
  - simpl. by rewrite read_compile_frame.
  - by apply create_backtest_inv.
  - simpl. by rewrite read_backtest_frame.
Qed.

Lemma run_inv tr w w' : inv w → run tr w = Some w' → inv w'.
Proof.
  revert w. induction tr as [|ev tr IH]; intros w Hinv; simpl.
  - by intros [= <-].
  - destruct (exec ev w) as [w1|] eqn:Hev; [|done]. simpl.
    apply IH. by eapply exec_inv.
Qed.

Lemma reachable_inv w : reachable w → inv w.
Proof. intros [tr Htr]. eapply run_inv; [apply inv_init | done]. Qed.

(** Every record of the backtest store has its runner in the thread
    pool, and is the record that runner has produced so far. *)
Lemma backtest_record w id b :
  inv w → dict_get (backtests (w_store w)) id = Some b →
  ∃ i th name now,
    w_threads w !! i = Some th
    ∧ th_runner th = BacktestRunner id
    ∧ th_exn th = None
    ∧ (th_pc th ≤ List.length simulate_backtest)%nat
    ∧ b = record_after simulate_backtest (th_pc th) (new_backtest name id now).
Proof.
  intros Hinv Hb.
  destruct (inv_backtests _ Hinv id) as [_ Hin]; [by eapply dict_get_keys|].
  apply list_elem_of_fmap in Hin as (th & Hr & Hin).
  apply list_elem_of_lookup in Hin as [i Hi].
  destruct (inv_threads _ Hinv _ _ Hi) as [Hexn Hok]. rewrite <- Hr in Hok.
  destruct Hok as [Hpc (name & now & Hget)].
  exists i, th, name, now. repeat split; try done. congruence.
Qed.

(** ** What the two readers return *)

Lemma read_compile_eval data w :
  handle (ReadCompile data) w
  = (match contains as_str_key (get data "compileId") (compiles (w_store w)) with
     | Ok true =>
         match getitem as_str_key (get data "compileId") (compiles (w_store w)) with
         | Ok c => Ok (CompilePayload c)
         | Raise e => Raise e
         end
     | Ok false => Ok (ErrorPayload false ["Compile job not found"])
     | Raise e => Raise e
     end, w).
Proof.
  simpl. unfold read_compile, mbind, M_bind, reads, mret, M_ret.
  destruct (contains _ _ _) as [[]|]; simpl; [|done..].
  by destruct (getitem _ _ _).
Qed.

Lemma read_backtest_eval data w :
  handle (ReadBacktest data) w
  = (if truthy (get data "backtestId") then
       match contains as_str_key (get data "backtestId") (backtests (w_store w)) with
       | Ok true =>
           match getitem as_str_key (get data "backtestId") (backtests (w_store w)) with
           | Ok b => Ok (BacktestPayload b)
           | Raise e => Raise e
           end
       | Ok false => Ok (ErrorPayload false ["Backtest not found"])
       | Raise e => Raise e
       end
     else
       Ok (BacktestsPayload true
             (filter (λ bt, py_eq (get (Backtest.items bt) "projectId")
                                  (get data "projectId") = true)
                     (dict_values (backtests (w_store w))))
             []), w).
Proof.
  simpl. unfold read_backtest, mbind, M_bind, gets, reads, mret, M_ret.
  destruct (truthy _); [|done].
  destruct (contains _ _ _) as [[]|]; simpl; [|done..].
  by destruct (getitem _ _ _).
Qed.

Lemma read_compile_present data w id c :
  get data "compileId" = JStr id →
  dict_get (compiles (w_store w)) id = Some c →
  response (ReadCompile data) w = Ok (CompilePayload c).
Proof.
  intros Hid Hc. unfold response. rewrite read_compile_eval, Hid. simpl.
  unfold contains, getitem, dict_mem. simpl. by rewrite Hc.
Qed.

Lemma read_backtest_present data w id b :
  get data "backtestId" = JStr id → is_uuid id = true →
  dict_get (backtests (w_store w)) id = Some b →
  response (ReadBacktest data) w = Ok (BacktestPayload b).
Proof.
  intros Hid Hu Hb. unfold response.
  rewrite read_backtest_eval, Hid, (is_uuid_truthy _ Hu). simpl.
  unfold contains, getitem, dict_mem. simpl. by rewrite Hb.
Qed.

(** No backtest record has a [projectId] item. *)
Lemma backtest_no_projectId bt : get (Backtest.items bt) "projectId" = JNull.
Proof. reflexivity. Qed.

Lemma py_eq_None v : py_eq JNull v = is_none v.
Proof. by destruct v. Qed.

(** ** Events and the records they leave alone *)

(** A request changes no job record that exists already, and no thread. *)
Lemma request_frame r w :
  inv w → uuid_ok r (w_store w) = true →
  let w' := snd (handle r w) in
  (∀ i th, w_threads w !! i = Some th → w_threads w' !! i = Some th)
  ∧ (∀ id c, dict_get (compiles (w_store w)) id = Some c →
             dict_get (compiles (w_store w')) id = Some c)
  ∧ (∀ id b, dict_get (backtests (w_store w)) id = Some b →
             dict_get (backtests (w_store w')) id = Some b).
Proof.
  intros Hinv Hok. destruct r as [data now1 now2|data uuid|data|data uuid now|data].
  - by repeat split.
  - rewrite create_compile_world.
    destruct (contains _ _ _) as [[]|]; simpl; [|done..].
    simpl in Hok. apply andb_true_iff in Hok as [_ Hfresh].
    apply negb_true_iff, dict_mem_false in Hfresh.
    repeat split; [|intros id c Hc|done].
    + intros i th Hi. by apply lookup_app_l_Some.
    + rewrite dict_get_set_ne; [done | congruence].
  - simpl. by rewrite read_compile_frame.
  - rewrite create_backtest_world.
    destruct (contains _ _ _) as [[]|]; simpl; [|done..].
    simpl in Hok. apply andb_true_iff in Hok as [_ Hfresh].
    apply negb_true_iff, dict_mem_false in Hfresh.
    repeat split; [|done|intros id b Hb].
    + intros i th Hi. by apply lookup_app_l_Some.
    + rewrite dict_get_set_ne; [done | congruence].
  - simpl. by rewrite read_backtest_frame.
Qed.

(** A step of thread [j] leaves the other threads and the records of
    their jobs alone. *)
Lemma tick_frame j w w' i th :
  inv w → exec (Tick j) w = Some w' → w_threads w !! i = Some th → i ≠ j →
  w_threads w' !! i = Some th
  ∧ match th_runner th with
    | CompileRunner id =>
        dict_get (compiles (w_store w')) id = dict_get (compiles (w_store w)) id
    | BacktestRunner id =>
        dict_get (backtests (w_store w')) id = dict_get (backtests (w_store w)) id
    end.
Proof.
  intros Hinv Hex Hi Hne. simpl in Hex.
  destruct (w_threads w !! j) as [th2|] eqn:Hj; [|done]. simpl in Hex.
  destruct (thread_step th2 (w_store w)) as [[th2' s']|] eqn:Hstep; [|done].
  simpl in Hex. injection Hex as <-. simpl.
  split; [by rewrite list_lookup_insert_ne|].
  pose proof (inv_threads _ Hinv _ _ Hj) as Hok2.
  assert (th_runner th ≠ th_runner th2) as Hr.
  { intros Hr. apply Hne. by eapply runner_unique. }
  destruct (th_runner th2) as [id2|id2] eqn:Hr2.
  - destruct (thread_step_compile _ _ _ Hok2 Hr2 _ _ Hstep)
      as (ins & d' & _ & _ & -> & _ & Hother & _).
    destruct (th_runner th) as [id|id]; simpl; [|done].
    apply Hother. congruence.
  - destruct (thread_step_backtest _ _ _ Hok2 Hr2 _ _ Hstep)
      as (ins & d' & name & now & _ & _ & -> & _ & _ & Hother & _).
    destruct (th_runner th) as [id|id]; simpl; [done|].
    apply Hother. congruence.
Qed.

(** A finished thread takes no further step. *)
Lemma finished_no_step th s : finished th = true → thread_step th s = None.
Proof.
  unfold finished, thread_step. intros Hf.
  apply andb_true_iff in Hf as [Hpc _]. apply Nat.eqb_eq in Hpc.
  destruct (th_exn th); [done|].
  destruct (th_runner th); simpl in Hpc; rewrite Hpc; done.
Qed.

(** Once its runner has finished, a job's thread and record stay as
    they are, whatever else happens. *)
Lemma finished_stable_step ev w w' i th :
  inv w → exec ev w = Some w' → w_threads w !! i = Some th → finished th = true →
  w_threads w' !! i = Some th
  ∧ match th_runner th with
    | CompileRunner id =>
        dict_get (compiles (w_store w')) id = dict_get (compiles (w_store w)) id
    | BacktestRunner id =>
        dict_get (backtests (w_store w')) id = dict_get (backtests (w_store w)) id
    end.
Proof.
  intros Hinv Hex Hi Hfin. destruct ev as [r|j].
  - simpl in Hex. destruct (uuid_ok r (w_store w)) eqn:Hok; [|done].
    injection Hex as <-.
    destruct (request_frame r w Hinv Hok) as (Hth & Hc & Hb).
    split; [by apply Hth|].
    destruct (inv_threads _ Hinv _ _ Hi) as [_ Hok'].
    destruct (th_runner th) as [id|id].
    + destruct Hok' as [_ Hget]. rewrite Hget. by apply Hc.
    + destruct Hok' as [_ (name & now & Hget)]. rewrite Hget. by apply Hb.
  - destruct (decide (i = j)) as [->|Hne]; [|by eapply tick_frame].
    simpl in Hex. rewrite Hi in Hex. simpl in Hex.
    by rewrite finished_no_step in Hex.
Qed.

Lemma finished_stable tr w w' i th :
  inv w → run tr w = Some w' → w_threads w !! i = Some th → finished th = true →
  w_threads w' !! i = Some th
  ∧ match th_runner th with
    | CompileRunner id =>
        dict_get (compiles (w_store w')) id = dict_get (compiles (w_store w)) id
    | BacktestRunner id =>
        dict_get (backtests (w_store w')) id = dict_get (backtests (w_store w)) id
    end.
Proof.
  revert w. induction tr as [|ev tr IH]; intros w Hinv Hrun Hi Hfin; simpl in Hrun.
  - injection Hrun as <-. split; [done|]. by destruct (th_runner th).
  - destruct (exec ev w) as [w1|] eqn:Hev; [|done]. simpl in Hrun.
    destruct (finished_stable_step _ _ _ _ _ Hinv Hev Hi Hfin) as [Hi1 Hrec1].
    destruct (IH w1 (exec_inv _ _ _ Hinv Hev) Hrun Hi1 Hfin) as [Hi' Hrec'].
    split; [done|]. destruct (th_runner th); congruence.
Qed.

(** ** Runners run to completion *)

(** A live thread that has instructions left can take its next step. *)
Lemma tick_enabled w i th :
  inv w → w_threads w !! i = Some th →
  (th_pc th < program_length (th_runner th))%nat →
  ∃ w', exec (Tick i) w = Some w' ∧ w_threads w' !! i = Some (advance th).
Proof.
  intros Hinv Hi Hpc. destruct (inv_threads _ Hinv _ _ Hi) as [Hexn Hok].
  simpl. rewrite Hi. simpl. unfold thread_step. rewrite Hexn.
  apply lookup_lt_Some in Hi as Hlt.
  destruct (th_runner th) as [id|id]; simpl in Hpc.
  - destruct Hok as [_ Hget].
    destruct (lookup_lt_is_Some_2 simulate_compilation (th_pc th)) as [ins Hins]; [done|].
    rewrite Hins. simpl.
    destruct (exec_instr_present ins _ _ _ Hget) as (d' & -> & _).
    eexists. split; [done|]. simpl. by rewrite list_lookup_insert_eq.
  - destruct Hok as [_ (name & now & Hget)].
    destruct (lookup_lt_is_Some_2 simulate_backtest (th_pc th)) as [ins Hins]; [done|].
    rewrite Hins. simpl.
    destruct (exec_instr_present ins _ _ _ Hget) as (d' & -> & _).
    eexists. split; [done|]. simpl. by rewrite list_lookup_insert_eq.
Qed.

(** Scheduling a live thread for the rest of its program finishes it. *)
Lemma runner_completes w i th :
  inv w → w_threads w !! i = Some th →
  ∃ w' th',
    run (replicate (program_length (th_runner th) - th_pc th) (Tick i)) w = Some w'
    ∧ w_threads w' !! i = Some th'
    ∧ th_runner th' = th_runner th
    ∧ finished th' = true.
Proof.
  remember (program_length (th_runner th) - th_pc th)%nat as n eqn:Hn.
  revert w th Hn. induction n as [|n IH]; intros w th Hn Hinv Hi.
  - exists w, th. repeat split; try done.
    destruct (inv_threads _ Hinv _ _ Hi) as [Hexn Hok].
    unfold finished. rewrite Hexn. simpl. rewrite andb_true_r. apply Nat.eqb_eq.
    destruct (th_runner th); simpl in *; lia.
  - destruct (tick_enabled w i th Hinv Hi) as (w1 & Hex & Hi1); [lia|].
    destruct (IH w1 (advance th)) as (w' & th' & Hrun & Hi' & Hr' & Hfin);
      [simpl; lia | by eapply exec_inv | done |].
    exists w', th'.
    change (run (replicate (S n) (Tick i)) w)
      with (exec (Tick i) w ≫= run (replicate n (Tick i))).
    rewrite Hex. by repeat split.
Qed.

(** ** The records a runner goes through *)

(** Evaluate the records of the goal, then decide each conjunct. *)
Ltac eval_records :=
  repeat match goal with
    | |- context [record_after ?p ?n ?r] =>
        let b := eval vm_compute in (record_after p n r) in
        change (record_after p n r) with b
    end.

Ltac stage_solve :=
  eval_records; cbv [zero_result terminal_result]; simpl;
  repeat split; intros;
  first [ reflexivity | discriminate | lia
        | exfalso; intuition (first [discriminate | lia]) ].

(** The backtest record after [pc] instructions of its runner: [completed]
    is set by instruction 21, progress is 1.0 from instruction 20 on, and
    the result is written by instructions 23 to 26. *)
Lemma backtest_stages name id now pc :
  (pc ≤ 26)%nat →
  let b := record_after simulate_backtest pc (new_backtest name id now) in
  (Backtest.completed b = true ↔ (21 ≤ pc)%nat)
  ∧ (Backtest.progress b = F64.lit_1_0 ↔ (20 ≤ pc)%nat)
  ∧ ((pc ≤ 22)%nat → zero_result (Backtest.result b))
  ∧ (terminal_result (Backtest.result b) ↔ pc = 26%nat)
  ∧ tick_progress !! ((pc `div` 2) `min` 10)%nat = Some (Backtest.progress b)
  ∧ F64.leb F64.lit_0_0 (Backtest.progress b) = true
  ∧ F64.leb (Backtest.progress b) F64.lit_1_0 = true
  ∧ F64.leb (Backtest.progress b) (Backtest.progress b) = true
  ∧ F64.leb (Backtest.progress b)
      (Backtest.progress (record_after simulate_backtest (S pc) (new_backtest name id now)))
    = true
  ∧ ((21 ≤ pc)%nat →
     Backtest.progress (record_after simulate_backtest (S pc) (new_backtest name id now))
     = Backtest.progress b).
Proof.
  intros Hpc b. subst b.
  do 27 (destruct pc as [|pc]; [clear Hpc; stage_solve|]).
  exfalso. lia.
Qed.

(** The compile record after [pc] instructions of its runner. *)
Lemma compile_stages id pc :
  (pc ≤ 3)%nat →
  let c := record_after simulate_compilation pc (new_compile id) in
  ((pc ≤ 1)%nat → Compile.state c = "InQueue")
  ∧ ((2 ≤ pc)%nat → Compile.state c = "BuildSuccess")
  ∧ ((pc ≤ 2)%nat → Compile.logs c = ["Compilation started"])
  ∧ (pc = 3%nat →
     Compile.logs c = ["Compilation started"; "Compilation completed successfully"]).
Proof.
  intros Hpc c. subst c.
  do 4 (destruct pc as [|pc]; [clear Hpc; stage_solve|]).
  exfalso. lia.
Qed.

(* ===================================================================== *)
(** * The claims *)
(* ===================================================================== *)

Lemma session_world_reachable n m :
  is_Some (run (session ++ replicate n (Tick 0) ++ replicate m (Tick 1)) init_world) →
  reachable (session_world n m).
Proof.
  intros [w Hw]. unfold session_world, reachable. rewrite Hw. by eexists.
Qed.

(** C1. In every reachable world, reading the id of a backtest job
    returns its record; after [k] ticks of the runner the record's
    progress is the [k]-th of 0.0, 0.1, ..., 1.0 (so the ten ticks show
    0.1, 0.2, ..., 1.0 in turn); and once the runner has run to
    completion the record has [completed = True], [progress = 1.0] and
    the result 25 / 0.68 / 0.15 / 1.2. *)
Theorem C1_completed_backtest_read w i th id data :
  reachable w →
  w_threads w !! i = Some th →
  th_runner th = BacktestRunner id →
  get data "backtestId" = JStr id →
  ∃ b, response (ReadBacktest data) w = Ok (BacktestPayload b)
    ∧ tick_progress !! ((th_pc th `div` 2) `min` 10)%nat = Some (Backtest.progress b)
    ∧ (finished th = true →
       Backtest.completed b = true
       ∧ Backtest.progress b = F64.lit_1_0
       ∧ terminal_result (Backtest.result b)).
Proof.
  intros Hreach Hi Hr Hid. apply reachable_inv in Hreach as Hinv.
  destruct (inv_threads _ Hinv _ _ Hi) as [Hexn Hok]. rewrite Hr in Hok.
  destruct Hok as [Hpc (name & now & Hget)].
  destruct (inv_backtests _ Hinv id) as [Hu _]; [by eapply dict_get_keys|].
  eexists. split; [by eapply read_backtest_present|].
  destruct (backtest_stages name id now (th_pc th) Hpc)
    as (Hcompleted & Hprogress & _ & Hterminal & Hticks & _).
  split; [done|]. intros Hfin.
  apply andb_true_iff in Hfin as [Hfin _]. apply Nat.eqb_eq in Hfin.
  rewrite Hr in Hfin. simpl in Hfin.
  split; [apply Hcompleted; lia|]. split; [apply Hprogress; lia | by apply Hterminal].
Qed.

Lemma C1_witness :
  ∃ b, response (ReadBacktest [("projectId", JInt 1); ("backtestId", JStr uuid1)])
         (session_world 26 0)
       = Ok (BacktestPayload b)
    ∧ tick_progress !! ((26 `div` 2) `min` 10)%nat = Some (Backtest.progress b)
    ∧ (finished {| th_runner := BacktestRunner uuid1; th_pc := 26; th_exn := None |} = true →
       Backtest.completed b = true
       ∧ Backtest.progress b = F64.lit_1_0
       ∧ terminal_result (Backtest.result b)).
Proof.
  apply (C1_completed_backtest_read (session_world 26 0) 0
           {| th_runner := BacktestRunner uuid1; th_pc := 26; th_exn := None |} uuid1).
  - apply session_world_reachable. vm_compute. eauto.
  - vm_compute. reflexivity.
  - reflexivity.
  - reflexivity.
Defined.

(** C2, as the code has it.  While [completed] is false every result
    field has its initial zero value, so a record whose result is the
    terminal payload has [completed] true; and once the runner has
    finished, [completed] is true and the result is the terminal
    payload.  ([completed] is written before the four result fields, so
    the worlds in between show [completed] true with a zero or partly
    written result.) *)
Theorem C2_result_and_completed w id b :
  reachable w →
  dict_get (backtests (w_store w)) id = Some b →
  (Backtest.completed b = false → zero_result (Backtest.result b))
  ∧ (terminal_result (Backtest.result b) → Backtest.completed b = true)
  ∧ (∀ i th, w_threads w !! i = Some th → th_runner th = BacktestRunner id →
       finished th = true →
       Backtest.completed b = true ∧ terminal_result (Backtest.result b)).
Proof.
  intros Hreach Hb. apply reachable_inv in Hreach as Hinv.
  destruct (backtest_record _ _ _ Hinv Hb) as (i & th & name & now & Hi & Hr & _ & Hpc & ->).
  destruct (backtest_stages name id now (th_pc th) Hpc)
    as (Hcompleted & _ & Hzero & Hterminal & _).
  split; [|split].
  - intros Hc. apply Hzero. destruct (decide (21 ≤ th_pc th)%nat) as [Hge|]; [|lia].
    apply Hcompleted in Hge. congruence.
  - intros Ht. apply Hcompleted. apply Hterminal in Ht. lia.
  - intros j th' Hj Hr' Hfin.
    assert (j = i) as -> by (eapply runner_unique; [done..|congruence]).
    assert (th' = th) as -> by congruence.
    apply andb_true_iff in Hfin as [Hfin _]. apply Nat.eqb_eq in Hfin.
    rewrite Hr in Hfin. simpl in Hfin.
    split; [apply Hcompleted; lia | by apply Hterminal].
Qed.

Lemma C2_witness :
  Backtest.completed (session_backtest 26 0) = true
  ∧ terminal_result (Backtest.result (session_backtest 26 0)).
Proof.
  destruct (C2_result_and_completed (session_world 26 0) uuid1 (session_backtest 26 0))
    as (_ & _ & Hfinished).
  - apply session_world_reachable. vm_compute. eauto.
  - vm_compute. reflexivity.
  - apply (Hfinished 0%nat {| th_runner := BacktestRunner uuid1; th_pc := 26; th_exn := None |}).
    + vm_compute. reflexivity.
    + reflexivity.
    + reflexivity.
Defined.

(** C2 as stated fails: after the runner's 21st instruction (the ten
    ticks and [completed = True]) the record has [completed] true and a
    result that is still all zeros. *)
Lemma C2_counterexample :
  run (session ++ replicate 21 (Tick 0)) init_world = Some (session_world 21 0)
  ∧ dict_get (backtests (w_store (session_world 21 0))) uuid1 = Some (session_backtest 21 0)
  ∧ Backtest.completed (session_backtest 21 0) = true
  ∧ zero_result (Backtest.result (session_backtest 21 0)).
Proof. vm_compute. repeat split. Qed.

(** C3, as the code has it.  [completed = True] implies
    [progress = 1.0], and progress is 1.0 only once the runner has made
    all ten ticks (its first twenty instructions); the converse of the
    first half fails between the tenth tick and the write of
    [completed]. *)
Theorem C3_completed_implies_full_progress w id b :
  reachable w →
  dict_get (backtests (w_store w)) id = Some b →
  (Backtest.completed b = true → Backtest.progress b = F64.lit_1_0)
  ∧ (Backtest.progress b = F64.lit_1_0 →
     ∃ i th, w_threads w !! i = Some th
       ∧ th_runner th = BacktestRunner id
       ∧ (20 ≤ th_pc th)%nat).
Proof.
  intros Hreach Hb. apply reachable_inv in Hreach as Hinv.
  destruct (backtest_record _ _ _ Hinv Hb) as (i & th & name & now & Hi & Hr & _ & Hpc & ->).
  destruct (backtest_stages name id now (th_pc th) Hpc) as (Hcompleted & Hprogress & _).
  split.
  - intros Hc. apply Hprogress. apply Hcompleted in Hc. lia.
  - intros Hp. exists i, th. repeat split; try done. by apply Hprogress.
Qed.

Lemma C3_witness :
  (Backtest.completed (session_backtest 26 0) = true →
   Backtest.progress (session_backtest 26 0) = F64.lit_1_0)
  ∧ (Backtest.progress (session_backtest 26 0) = F64.lit_1_0 →
     ∃ i th, w_threads (session_world 26 0) !! i = Some th
       ∧ th_runner th = BacktestRunner uuid1
       ∧ (20 ≤ th_pc th)%nat).
Proof.
  apply (C3_completed_implies_full_progress (session_world 26 0) uuid1 (session_backtest 26 0)).
  - apply session_world_reachable. vm_compute. eauto.
  - vm_compute. reflexivity.
Defined.

(** C3 as stated fails: after the tenth tick (twenty instructions of the
    runner) progress is exactly 1.0 and [completed] is still false. *)
Lemma C3_counterexample :
  run (session ++ replicate 20 (Tick 0)) init_world = Some (session_world 20 0)
  ∧ dict_get (backtests (w_store (session_world 20 0))) uuid1 = Some (session_backtest 20 0)
  ∧ Backtest.progress (session_backtest 20 0) = F64.lit_1_0
  ∧ Backtest.completed (session_backtest 20 0) = false.
Proof. vm_compute. repeat split. Qed.



(** The listing branch of [read_backtest]: the filter compares the
    [projectId] item of each record, which no record has, with the
    request's, so it keeps everything when the request has no
    [projectId] and nothing otherwise. *)
Lemma read_backtest_listing data w :
  truthy (get data "backtestId") = false →
  response (ReadBacktest data) w
  = Ok (BacktestsPayload true
          (if is_none (get data "projectId")
           then dict_values (backtests (w_store w)) else [])
          []).
Proof.
  intros Hfalsy. unfold response. rewrite read_backtest_eval, Hfalsy. cbn [fst].
  do 2 f_equal. induction (dict_values (backtests (w_store w))) as [|bt l IH].
  - by destruct (is_none _).
  - rewrite filter_cons, IH, backtest_no_projectId, py_eq_None.
    destruct (is_none _); [by rewrite decide_True | by rewrite decide_False].
Qed.

(** C5 fails on the code.  In the sample session the backtest [uuid1]
    was created for project 1 and is in the store, yet listing the
    backtests of project 1 returns the empty list. *)
Lemma C5_listing_for_project_is_empty :
  response (CreateBacktest [("projectId", JInt 1); ("backtestName", JStr "Test Backtest")]
              uuid1 "2024-01-01T00:00:01")
    (default init_world (run (take 1 session) init_world))
  = Ok (BacktestPayload (session_backtest 0 0))
  ∧ dict_keys (backtests (w_store (session_world 0 0))) = [uuid1]
  ∧ response (ReadBacktest [("projectId", JInt 1)]) (session_world 0 0)
    = Ok (BacktestsPayload true [] []).
Proof. vm_compute. repeat split. Qed.

(** C6, as the code has it.  A compile id whose membership test is
    false gets ["Compile job not found"]; a backtest id that is truthy
    and whose membership test is false gets ["Backtest not found"]; both
    as payloads with [success = False], and the world is left as it
    was. *)
Theorem C6_not_found w cdata bdata :
  contains as_str_key (get cdata "compileId") (compiles (w_store w)) = Ok false →
  truthy (get bdata "backtestId") = true →
  contains as_str_key (get bdata "backtestId") (backtests (w_store w)) = Ok false →
  handle (ReadCompile cdata) w = (Ok (ErrorPayload false ["Compile job not found"]), w)
  ∧ handle (ReadBacktest bdata) w = (Ok (ErrorPayload false ["Backtest not found"]), w).
Proof.
  intros Hc Ht Hb. by rewrite read_compile_eval, read_backtest_eval, Hc, Ht, Hb.
Qed.

Lemma C6_witness :
  handle (ReadCompile [("projectId", JInt 1); ("compileId", JStr uuid1)]) (session_world 3 1)
  = (Ok (ErrorPayload false ["Compile job not found"]), session_world 3 1)
  ∧ handle (ReadBacktest [("projectId", JInt 1); ("backtestId", JStr uuid2)]) (session_world 3 1)
    = (Ok (ErrorPayload false ["Backtest not found"]), session_world 3 1).
Proof.
  apply (C6_not_found (session_world 3 1)
           [("projectId", JInt 1); ("compileId", JStr uuid1)]
           [("projectId", JInt 1); ("backtestId", JStr uuid2)]).
  - vm_compute. reflexivity.
  - reflexivity.
  - vm_compute. reflexivity.
Defined.

(** C6 as stated fails: the empty string is not a key of the backtest
    store, yet reading it answers [success = True] with a listing. *)
Lemma C6_counterexample :
  contains as_str_key (JStr "") (backtests (w_store (session_world 0 0))) = Ok false
  ∧ response (ReadBacktest [("projectId", JInt 1); ("backtestId", JStr "")])
      (session_world 0 0)
    = Ok (BacktestsPayload true [] []).
Proof. vm_compute. repeat split. Qed.

(** An id that cannot be hashed makes the membership test raise. *)
Lemma read_unhashable w :
  response (ReadCompile [("compileId", JArr [])]) w = Raise TypeError
  ∧ response (ReadBacktest [("backtestId", JArr [JInt 1])]) w = Raise TypeError.
Proof. done. Qed.

(** An event moves a backtest record either not at all or by the next
    instruction of its runner. *)
Lemma backtest_step ev w w' id b :
  inv w → exec ev w = Some w' →
  dict_get (backtests (w_store w)) id = Some b →
  ∃ name now pc,
    (pc ≤ 26)%nat
    ∧ b = record_after simulate_backtest pc (new_backtest name id now)
    ∧ (dict_get (backtests (w_store w')) id = Some b
       ∨ ((pc < 26)%nat
          ∧ dict_get (backtests (w_store w')) id
            = Some (record_after simulate_backtest (S pc) (new_backtest name id now)))).
Proof.
  intros Hinv Hex Hb.
  destruct (backtest_record _ _ _ Hinv Hb) as (i & th & name & now & Hi & Hr & _ & Hpc & Hbeq).
  destruct ev as [r|j].
  - simpl in Hex. destruct (uuid_ok r (w_store w)) eqn:Hok; [|done]. injection Hex as <-.
    destruct (request_frame r w Hinv Hok) as (_ & _ & Hframe).
    exists name, now, (th_pc th). repeat split; try done. left. by apply Hframe.
  - destruct (decide (i = j)) as [->|Hne].
    + simpl in Hex. rewrite Hi in Hex. simpl in Hex.
      destruct (thread_step th (w_store w)) as [[th' s']|] eqn:Hstep; [|done].
      injection Hex as <-. simpl.
      destruct (thread_step_backtest _ _ _ (inv_threads _ Hinv _ _ Hi) Hr _ _ Hstep)
        as (ins & d' & name' & now' & Hins & -> & -> & Hget & Hget' & _).
      apply lookup_lt_Some in Hins. simpl in Hins.
      exists name', now', (th_pc th). split; [lia|]. split; [congruence|].
      right. split; [lia | done].
    + destruct (tick_frame _ _ _ _ _ Hinv Hex Hi Hne) as [_ Hframe]. rewrite Hr in Hframe.
      exists name, now, (th_pc th). repeat split; try done. left. congruence.
Qed.

(** C7. A backtest record starts with progress 0.0; its progress always
    lies between 0.0 and 1.0; no event of the system makes it smaller;
    and once [completed] is true no event changes it. *)
Theorem C7_progress_monotone w ev w' id b :
  reachable w →
  exec ev w = Some w' →
  dict_get (backtests (w_store w)) id = Some b →
  (∀ i th, w_threads w !! i = Some th → th_runner th = BacktestRunner id →
     th_pc th = 0%nat → Backtest.progress b = F64.lit_0_0)
  ∧ F64.leb F64.lit_0_0 (Backtest.progress b) = true
  ∧ F64.leb (Backtest.progress b) F64.lit_1_0 = true
  ∧ ∃ b', dict_get (backtests (w_store w')) id = Some b'
      ∧ F64.leb (Backtest.progress b) (Backtest.progress b') = true
      ∧ (Backtest.completed b = true → Backtest.progress b' = Backtest.progress b).
Proof.
  intros Hreach Hex Hb. apply reachable_inv in Hreach as Hinv.
  split.
  - intros i th Hi Hr Hpc0.
    destruct (inv_threads _ Hinv _ _ Hi) as [_ Hok]. rewrite Hr, Hpc0 in Hok.
    destruct Hok as [_ (name & now & Hget)]. rewrite record_after_0 in Hget.
    assert (b = new_backtest name id now) as -> by congruence. reflexivity.
  - destruct (backtest_step _ _ _ _ _ Hinv Hex Hb) as (name & now & pc & Hpc & -> & Hnext).
    destruct (backtest_stages name id now pc Hpc)
      as (Hcompleted & _ & _ & _ & _ & Hge0 & Hle1 & Hrefl & Hmono & Hpinned).
    split; [done|]. split; [done|].
    destruct Hnext as [Hsame|[_ Hadv]]; eexists; (split; [done|]); split; try done.
    intros Hc. apply Hpinned. by apply Hcompleted.
Qed.

Lemma C7_witness :
  F64.leb F64.lit_0_0 (Backtest.progress (session_backtest 3 0)) = true
  ∧ F64.leb (Backtest.progress (session_backtest 3 0)) F64.lit_1_0 = true
  ∧ ∃ b', dict_get (backtests (w_store (session_world 4 0))) uuid1 = Some b'
      ∧ F64.leb (Backtest.progress (session_backtest 3 0)) (Backtest.progress b') = true
      ∧ (Backtest.completed (session_backtest 3 0) = true →
         Backtest.progress b' = Backtest.progress (session_backtest 3 0)).
Proof.
  apply (C7_progress_monotone (session_world 3 0) (Tick 0) (session_world 4 0) uuid1
           (session_backtest 3 0)).
  - apply session_world_reachable. vm_compute. eauto.
  - vm_compute. reflexivity.
  - vm_compute. reflexivity.
Defined.

(** C8. Neither reader changes the world, so a read repeated at once
    returns the same response; and once the runner of a job has
    finished, reading the job's id returns the same response in every
    later world, whatever requests and steps of other runners came in
    between. *)
Theorem C8_reads_change_nothing :
  (∀ w data,
     snd (handle (ReadCompile data) w) = w
     ∧ snd (handle (ReadBacktest data) w) = w
     ∧ response (ReadCompile data) (snd (handle (ReadCompile data) w))
       = response (ReadCompile data) w
     ∧ response (ReadBacktest data) (snd (handle (ReadBacktest data) w))
       = response (ReadBacktest data) w)
  ∧ (∀ w tr w' i th data,
       reachable w → run tr w = Some w' →
       w_threads w !! i = Some th → finished th = true →
       match th_runner th with
       | CompileRunner id =>
           get data "compileId" = JStr id →
           response (ReadCompile data) w' = response (ReadCompile data) w
       | BacktestRunner id =>
           get data "backtestId" = JStr id →
           response (ReadBacktest data) w' = response (ReadBacktest data) w
       end).
Proof.
  split.
  - intros w data. simpl. by rewrite read_compile_frame, read_backtest_frame.
  - intros w tr w' i th data Hreach Hrun Hi Hfin. apply reachable_inv in Hreach as Hinv.
    destruct (finished_stable _ _ _ _ _ Hinv Hrun Hi Hfin) as [_ Hsame].
    destruct (inv_threads _ Hinv _ _ Hi) as [_ Hok].
    destruct (th_runner th) as [id|id] eqn:Hr; intros Hid.
    + destruct Hok as [_ Hget].
      rewrite (read_compile_present data w id _ Hid Hget).
      apply (read_compile_present data w' id); [done | congruence].
    + destruct Hok as [_ (name & now & Hget)].
      destruct (inv_backtests _ Hinv id) as [Hu _]; [by eapply dict_get_keys|].
      rewrite (read_backtest_present data w id _ Hid Hu Hget).
      apply (read_backtest_present data w' id); [done.. | congruence].
Qed.

Lemma C8_witness :
  response (ReadBacktest [("projectId", JInt 1); ("backtestId", JStr uuid1)])
    (session_world 26 3)
  = response (ReadBacktest [("projectId", JInt 1); ("backtestId", JStr uuid1)])
      (session_world 26 0).
Proof.
  apply (proj2 C8_reads_change_nothing (session_world 26 0) (replicate 3 (Tick 1))
           (session_world 26 3) 0%nat
           {| th_runner := BacktestRunner uuid1; th_pc := 26; th_exn := None |}
           [("projectId", JInt 1); ("backtestId", JStr uuid1)]).
  - apply session_world_reachable. vm_compute. eauto.
  - vm_compute. reflexivity.
  - vm_compute. reflexivity.
  - reflexivity.
  - reflexivity.
Defined.

(** C9. When the [backtestId] of a read request is a key of the store,
    the response is that record, whatever else the request carries: two
    requests with the same [backtestId] get the same response. *)
Theorem C9_read_ignores_projectId w data1 data2 :
  reachable w →
  get data1 "backtestId" = get data2 "backtestId" →
  contains as_str_key (get data1 "backtestId") (backtests (w_store w)) = Ok true →
  response (ReadBacktest data1) w = response (ReadBacktest data2) w
  ∧ ∃ id b, get data1 "backtestId" = JStr id
      ∧ dict_get (backtests (w_store w)) id = Some b
      ∧ response (ReadBacktest data1) w = Ok (BacktestPayload b).
Proof.
  intros Hreach Hsame Hknown. apply reachable_inv in Hreach as Hinv.
  apply contains_str_true in Hknown as (id & Hid & [b Hb]).
  destruct (inv_backtests _ Hinv id) as [Hu _]; [by eapply dict_get_keys|].
  rewrite (read_backtest_present data1 w id b), (read_backtest_present data2 w id b);
    try done; [|congruence].
  split; [done|]. by exists id, b.
Qed.

Lemma C9_witness :
  response (ReadBacktest [("projectId", JInt 1); ("backtestId", JStr uuid1)])
    (session_world 7 0)
  = response (ReadBacktest [("backtestId", JStr uuid1); ("projectId", JStr "other")])
      (session_world 7 0).
Proof.
  apply (C9_read_ignores_projectId (session_world 7 0)
           [("projectId", JInt 1); ("backtestId", JStr uuid1)]
           [("backtestId", JStr uuid1); ("projectId", JStr "other")]).
  - apply session_world_reachable. vm_compute. eauto.
  - reflexivity.
  - vm_compute. reflexivity.
Defined.

(** C10, as the code has it.  When the request's [projectId] is no key
    of the project store, both creations leave the world, its four
    stores and its thread pool, exactly as it was: no job record is
    created and no runner is started; and when the value can be hashed
    they answer [success = False] with ["Project not found"]. *)
Theorem C10_unknown_project w data uuid now :
  is_project_key (get data "projectId") (w_store w) = false →
  (snd (handle (CreateCompile data uuid) w) = w
   ∧ snd (handle (CreateBacktest data uuid now) w) = w)
  ∧ (hashable (get data "projectId") = true →
     response (CreateCompile data uuid) w = Ok (ErrorPayload false ["Project not found"])
     ∧ response (CreateBacktest data uuid now) w
       = Ok (ErrorPayload false ["Project not found"])).
Proof.
  intros Hunknown. unfold response.
  rewrite create_compile_world, create_backtest_world.
  unfold is_project_key in Hunknown. unfold contains.
  destruct (hashable (get data "projectId")).
  - rewrite Hunknown. by split.
  - by split.
Qed.

Lemma C10_witness :
  (snd (handle (CreateCompile [("projectId", JInt 2)] uuid2) (session_world 0 0))
   = session_world 0 0
   ∧ snd (handle (CreateBacktest [("projectId", JInt 2)] uuid2 "2024-01-01T00:00:02")
            (session_world 0 0))
     = session_world 0 0)
  ∧ (hashable (get [("projectId", JInt 2)] "projectId") = true →
     response (CreateCompile [("projectId", JInt 2)] uuid2) (session_world 0 0)
     = Ok (ErrorPayload false ["Project not found"])
     ∧ response (CreateBacktest [("projectId", JInt 2)] uuid2 "2024-01-01T00:00:02")
         (session_world 0 0)
       = Ok (ErrorPayload false ["Project not found"])).
Proof.
  apply (C10_unknown_project (session_world 0 0) [("projectId", JInt 2)] uuid2
           "2024-01-01T00:00:02").
  vm_compute. reflexivity.
Defined.

(** C10 as stated fails: the JSON list [[7]] is no key of the project
    store, yet neither creation answers with a payload; the membership
    test raises [TypeError]. *)
Lemma C10_counterexample :
  is_project_key (JArr [JInt 7]) (w_store (session_world 0 0)) = false
  ∧ response (CreateCompile [("projectId", JArr [JInt 7])] uuid1) (session_world 0 0)
    = Raise TypeError
  ∧ response (CreateBacktest [("projectId", JArr [JInt 7])] uuid2 "2024-01-01T00:00:02")
      (session_world 0 0)
    = Raise TypeError.
Proof. vm_compute. repeat split. Qed.

(* ===================================================================== *)
(** * The rest of the interface *)
(* ===================================================================== *)

(** ** More on dictionaries *)

Section DictMore.
Context {K V : Type} `{EqDecision K}.
Implicit Types (d : dict K V) (k : K) (v : V).

Lemma dict_length_set d k v :
  List.length (dict_set d k v)
  = if dict_mem d k then List.length d else S (List.length d).
Proof.
  unfold dict_mem. induction d as [|[k' v'] d IH]; simpl; [done|].
  destruct (decide (k' = k)) as [->|Hne]; simpl; [done|].
  rewrite IH. by destruct (dict_get d k).
Qed.

Lemma dict_length_keys d : List.length (dict_keys d) = List.length d.
Proof. unfold dict_keys. apply length_fmap. Qed.

Lemma dict_mem_set d k k' v :
  dict_mem d k' = true → dict_mem (dict_set d k v) k' = true.
Proof.
  intros Hm. unfold dict_mem in *.
  destruct (decide (k = k')) as [->|Hne].
  - by rewrite dict_get_set_eq.
  - by rewrite dict_get_set_ne.
Qed.

(** With distinct keys, the values of the keys are the values in order. *)
Lemma dict_values_by_key {B} (f : V → B) (g : K → B) d :
  NoDup (dict_keys d) →
  (∀ k v, dict_get d k = Some v → f v = g k) →
  f <$> dict_values d = g <$> dict_keys d.
Proof.
  unfold dict_keys, dict_values.
  induction d as [|[k v] d IH]; csimpl; [done|].
  intros Hnd Hf. apply NoDup_cons in Hnd as [Hk Hnd]. f_equal.
  - apply Hf. simpl. by rewrite decide_True.
  - apply IH; [done|]. intros k' v' Hget. apply Hf. simpl.
    rewrite decide_False; [done|]. intros ->. apply Hk.
    by eapply dict_get_keys.
Qed.

End DictMore.

Lemma run_app tr1 tr2 w : run (tr1 ++ tr2) w = run tr1 w ≫= run tr2.
Proof.
  revert w. induction tr1 as [|ev tr1 IH]; intros w; simpl; [done|].
  destruct (exec ev w); simpl; [apply IH | done].
Qed.

Lemma run_calls_app tr1 tr2 w :
  run_calls (tr1 ++ tr2) w = run_calls tr1 w ≫= run_calls tr2.
Proof.
  revert w. induction tr1 as [|c tr1 IH]; intros w; simpl; [done|].
  destruct (exec_call c w); simpl; [apply IH | done].
Qed.

Lemma run_calls_jobs tr w : run_calls (Job <$> tr) w = run tr w.
Proof.
  revert w. induction tr as [|ev tr IH]; intros w; csimpl; [done|].
  destruct (exec ev w); simpl; [apply IH | done].
Qed.

Lemma reachable_api_reachable w : reachable w → api_reachable w.
Proof. intros [tr Htr]. exists (Job <$> tr). by rewrite run_calls_jobs. Qed.

(** ** What the other handlers do to the world *)

Lemma append_item_ok {V} key (x : V) (d d' : dict Z (list V)) :
  append_item as_int_key key x d = Ok d' →
  ∃ k l, as_int_key key = Some k ∧ dict_get d k = Some l
    ∧ d' = dict_set d k (l ++ [x]).
Proof.
  unfold append_item. destruct (hashable key); [|done].
  destruct (as_int_key key) as [k|]; [|done].
  destruct (dict_get d k) as [l|] eqn:Hl; [|done].
  intros [= <-]. by exists k, l.
Qed.

Lemma create_file_eval data now w :
  serve (CreateFile data now) w
  = match contains as_int_key (get data "projectId") (projects (w_store w)) with
    | Ok true =>
        match append_item as_int_key (get data "projectId")
                {| File.name := get data "name";
                   File.content := get_default data "content" (JStr "");
                   File.modified := now |}
                (files (w_store w)) with
        | Ok d =>
            (match getitem as_int_key (get data "projectId") d with
             | Ok fs => Ok (FilesPayload true fs [])
             | Raise e => Raise e
             end,
             {| w_store := set_files d (w_store w); w_threads := w_threads w |})
        | Raise e => (Raise e, w)
        end
    | Ok false => (Ok (FilesPayload false [] ["Project not found"]), w)
    | Raise e => (Raise e, w)
    end.
Proof.
  simpl. unfold create_file, mbind, M_bind, updates, reads, mret, M_ret.
  destruct (contains _ _ _) as [[]|]; simpl; [|done..].
  destruct (append_item _ _ _ _) as [d|e]; simpl; [|done].
  by destruct (getitem _ _ _).
Qed.

Lemma read_files_eval data w :
  serve (ReadFiles data) w
  = (match contains as_int_key (get data "projectId") (projects (w_store w)) with
     | Ok true =>
         match getitem as_int_key (get data "projectId") (files (w_store w)) with
         | Ok project_files =>
             if truthy (get data "fileName") then
               match List.find (λ f, py_eq (File.name f) (get data "fileName"))
                       project_files with
               | Some f => Ok (FilesPayload true [f] [])
               | None => Ok (FilesPayload false [] ["File not found"])
               end
             else Ok (FilesPayload true project_files [])
         | Raise e => Raise e
         end
     | Ok false => Ok (FilesPayload false [] ["Project not found"])
     | Raise e => Raise e
     end, w).
Proof.
  simpl. unfold read_files, mbind, M_bind, reads, mret, M_ret.
  destruct (contains _ _ _) as [[]|]; simpl; [|done..].
  destruct (getitem _ _ _); simpl; [|done].
  destruct (truthy _); [|done]. by destruct (find _ _).
Qed.

Lemma read_projects_eval data w :
  serve (ReadProjects data) w
  = (if truthy (get data "projectId") then
       match contains as_int_key (get data "projectId") (projects (w_store w)) with
       | Ok true =>
           match getitem as_int_key (get data "projectId") (projects (w_store w)) with
           | Ok p => Ok (Payload (ProjectsPayload true [p] []))
           | Raise e => Raise e
           end
       | Ok false => Ok (Payload (ProjectsPayload false [] ["Project not found"]))
       | Raise e => Raise e
       end
     else Ok (Payload (ProjectsPayload true (dict_values (projects (w_store w))) [])), w).
Proof.
  simpl. unfold read_projects, mbind, M_bind, gets, reads, mret, M_ret.
  destruct (truthy _); [|done].
  destruct (contains _ _ _) as [[]|]; simpl; [|done..].
  by destruct (getitem _ _ _).
Qed.

Lemma create_live_eval data uuid now w :
  serve (CreateLive data uuid now) w
  = (match contains as_int_key (get data "projectId") (projects (w_store w)) with
     | Ok true =>
         Ok (LivePayload
               {| Live.projectId := get data "projectId";
                  Live.deployId := JStr uuid;
                  Live.status := JStr "Running";
                  Live.launched := now;
                  Live.stopped := JNull;
                  Live.success := true;
                  Live.errors := [] |})
     | Ok false => Ok (Payload (ErrorPayload false ["Project not found"]))
     | Raise e => Raise e
     end, w).
Proof.
  simpl. unfold create_live_algorithm, mbind, M_bind, reads, mret, M_ret.
  by destruct (contains _ _ _) as [[]|].
Qed.

(** Only [create_file] changes anything, and only the list of files of
    the one project it names. *)
Lemma serve_frame r w :
  let w' := snd (serve r w) in
  w_threads w' = w_threads w
  ∧ projects (w_store w') = projects (w_store w)
  ∧ compiles (w_store w') = compiles (w_store w)
  ∧ backtests (w_store w') = backtests (w_store w)
  ∧ dict_keys (files (w_store w')) = dict_keys (files (w_store w))
  ∧ match r with
    | CreateFile data _ =>
        ∀ k, as_int_key (get data "projectId") ≠ Some k →
             dict_get (files (w_store w')) k = dict_get (files (w_store w)) k
    | _ => w' = w
    end.
Proof.
  destruct r as [data|data now|data|data uuid now|data now|now].
  - by rewrite read_projects_eval.
  - rewrite create_file_eval.
    destruct (contains _ _ _) as [[]|]; [|done..].
    destruct (append_item _ _ _ _) as [d'|e] eqn:Happ; [|done].
    apply append_item_ok in Happ as (k & l & Hk & Hl & ->). simpl.
    repeat split; [by eapply dict_keys_set_present|].
    intros k' Hk'. apply dict_get_set_ne. congruence.
  - by rewrite read_files_eval.
  - by rewrite create_live_eval.
  - done.
  - done.
Qed.

(** ** The invariants hold for the whole interface *)

Lemma inv_ext w w' :
  w_threads w' = w_threads w →
  compiles (w_store w') = compiles (w_store w) →
  backtests (w_store w') = backtests (w_store w) →
  inv w → inv w'.
Proof.
  intros Ht Hc Hb [Hnd Hth Hkc Hkb]. split; rewrite ?Ht, ?Hc, ?Hb; try done.
  intros i th Hi. eapply thread_ok_ext; [| |by eapply Hth]; intros; congruence.
Qed.

Lemma exec_call_inv c w w' : inv w → exec_call c w = Some w' → inv w'.
Proof.
  intros Hinv. destruct c as [ev|r]; simpl.
  - by apply exec_inv.
  - intros [= <-]. destruct (serve_frame r w) as (Ht & _ & Hc & Hb & _).
    by eapply inv_ext.
Qed.

Lemma run_calls_inv tr w w' : inv w → run_calls tr w = Some w' → inv w'.
Proof.
  revert w. induction tr as [|c tr IH]; intros w Hinv; simpl.
  - by intros [= <-].
  - destruct (exec_call c w) as [w1|] eqn:Hc; [|done]. simpl.
    apply IH. by eapply exec_call_inv.
Qed.

Lemma api_reachable_inv w : api_reachable w → inv w.
Proof. intros [tr Htr]. eapply run_calls_inv; [apply inv_init | done]. Qed.

(** The world [create_project] leaves. *)
Lemma create_project_world data now1 now2 w :
  handle (CreateProject data now1 now2) w
  = let project_id := dict_len (projects (w_store w)) + 1 in
    let project :=
      {| Project.projectId := project_id;
         Project.name := get_default data "name" (JStr "Untitled Project");
         Project.language := get_default data "language" (JStr "C#");
         Project.created := now1; Project.modified := now2 |} in
    (Ok (ProjectsPayload true [project] []),
     {| w_store :=
          set_files (dict_set (files (w_store w)) project_id [])
            (set_projects (dict_set (projects (w_store w)) project_id project) (w_store w));
        w_threads := w_threads w |}).
Proof. reflexivity. Qed.

(** A step of a runner writes to the job stores only. *)
Lemma thread_step_projects th s th' s' :
  thread_step th s = Some (th', s') →
  projects s' = projects s ∧ files s' = files s.
Proof.
  unfold thread_step. destruct (th_exn th); [done|].
  destruct (th_runner th) as [id|id].
  - destruct (simulate_compilation !! th_pc th) as [i|]; [|done]. simpl.
    destruct (exec_instr _ _ _); by intros [= <- <-].
  - destruct (simulate_backtest !! th_pc th) as [i|]; [|done]. simpl.
    destruct (exec_instr _ _ _); by intros [= <- <-].
Qed.

(** Of the events of the job core only [create_project] touches the
    project and file stores. *)
Lemma exec_projects ev w w' :
  exec ev w = Some w' →
  match ev with
  | Request (CreateProject data now1 now2) =>
      w' = snd (handle (CreateProject data now1 now2) w)
  | _ => projects (w_store w') = projects (w_store w)
         ∧ files (w_store w') = files (w_store w)
  end.
Proof.
  destruct ev as [r|i]; simpl.
  - destruct (uuid_ok r (w_store w)); [|done]. intros [= <-].
    destruct r as [data now1 now2|data uuid|data|data uuid now|data].
    + done.
    + rewrite create_compile_world. by destruct (contains _ _ _) as [[]|].
    + by rewrite read_compile_eval.
    + rewrite create_backtest_world. by destruct (contains _ _ _) as [[]|].
    + by rewrite read_backtest_eval.
  - destruct (w_threads w !! i) as [th|]; [|done]. simpl.
    destruct (thread_step th (w_store w)) as [[th' s']|] eqn:Hstep; [|done].
    intros [= <-]. simpl. by eapply thread_step_projects.
Qed.

Lemma elem_of_ids (k : Z) (n : nat) :
  k ∈ Z.of_nat <$> seq 1 n ↔ (1 ≤ k ≤ Z.of_nat n)%Z.
Proof.
  rewrite list_elem_of_fmap. split.
  - intros (i & -> & Hi). apply elem_of_seq in Hi. lia.
  - intros Hk. exists (Z.to_nat k). split; [lia|]. apply elem_of_seq. lia.
Qed.

Lemma projects_ok_fresh s :
  projects_ok s →
  dict_get (projects s) (dict_len (projects s) + 1) = None
  ∧ dict_get (files s) (dict_len (projects s) + 1) = None.
Proof.
  intros (Hkeys & Hfiles & _).
  assert (dict_len (projects s) + 1 ∉ dict_keys (projects s)) as Hnew.
  { rewrite Hkeys, elem_of_ids. unfold dict_len. lia. }
  split; apply dict_mem_false.
  - destruct (dict_mem (projects s) _) eqn:Hm; [|done].
    by apply dict_mem_keys in Hm.
  - destruct (dict_mem (files s) _) eqn:Hm; [|done].
    apply dict_mem_keys in Hm. by rewrite Hfiles in Hm.
Qed.

Lemma create_project_ok data now1 now2 w :
  projects_ok (w_store w) →
  projects_ok (w_store (snd (handle (CreateProject data now1 now2) w))).
Proof.
  intros Hok. destruct (projects_ok_fresh _ Hok) as [Hp Hf].
  destruct Hok as (Hkeys & Hfiles & Hid).
  rewrite create_project_world. cbv zeta. unfold projects_ok.
  cbn [snd w_store set_files set_projects projects files].
  apply dict_mem_false in Hp as Hpm. apply dict_mem_false in Hf as Hfm.
  set (project := {| Project.projectId := dict_len (projects (w_store w)) + 1;
                     Project.name := get_default data "name" (JStr "Untitled Project");
                     Project.language := get_default data "language" (JStr "C#");
                     Project.created := now1; Project.modified := now2 |}).
  assert (dict_keys (dict_set (projects (w_store w))
                       (dict_len (projects (w_store w)) + 1) project)
          = dict_keys (projects (w_store w)) ++ [dict_len (projects (w_store w)) + 1])
    as Hkeys'.
  { by rewrite dict_keys_set, Hpm. }
  split; [|split].
  - rewrite Hkeys', dict_length_set, Hpm, seq_S, fmap_app, <- Hkeys.
    f_equal. csimpl. f_equal. unfold dict_len. lia.
  - by rewrite dict_keys_set, Hfm, Hfiles, Hkeys'.
  - intros k p. destruct (decide (dict_len (projects (w_store w)) + 1 = k)) as [<-|Hne].
    + rewrite dict_get_set_eq. by intros [= <-].
    + rewrite dict_get_set_ne by done. apply Hid.
Qed.

Lemma exec_call_projects_ok c w w' :
  projects_ok (w_store w) → exec_call c w = Some w' → projects_ok (w_store w').
Proof.
  intros Hok. destruct c as [ev|r]; simpl.
  - intros Hex. apply exec_projects in Hex.
    destruct ev as [[data now1 now2|data uuid|data|data uuid now|data]|i];
      [subst w'; by apply create_project_ok | ..];
      (destruct Hex as [Hp Hf]; unfold projects_ok; by rewrite Hp, Hf).
  - intros [= <-]. destruct (serve_frame r w) as (_ & Hp & _ & _ & Hf & _).
    destruct Hok as (Hkeys & Hfiles & Hid). unfold projects_ok.
    by rewrite Hp, Hf.
Qed.

Lemma run_calls_projects_ok tr w w' :
  projects_ok (w_store w) → run_calls tr w = Some w' → projects_ok (w_store w').
Proof.
  revert w. induction tr as [|c tr IH]; intros w Hok; simpl.
  - by intros [= <-].
  - destruct (exec_call c w) as [w1|] eqn:Hc; [|done]. simpl.
    apply IH. by eapply exec_call_projects_ok.
Qed.

Lemma file_world_reachable : api_reachable file_world.
Proof. exists file_session. vm_compute. reflexivity. Qed.

Lemma api_reachable_projects_ok w : api_reachable w → projects_ok (w_store w).
Proof.
  intros [tr Htr]. eapply run_calls_projects_ok; [|done].
  repeat split. intros k p. done.
Qed.

(** X1. In every world the server can reach, the project ids are
    1, 2, ..., n in the order of creation, the file store has a list for
    exactly these ids, and every project record carries the id it is
    stored under. *)
Theorem X1_project_ids_sequential w :
  api_reachable w →
  dict_keys (projects (w_store w))
  = Z.of_nat <$> seq 1 (List.length (projects (w_store w)))
  ∧ dict_keys (files (w_store w)) = dict_keys (projects (w_store w))
  ∧ ∀ k p, dict_get (projects (w_store w)) k = Some p → Project.projectId p = k.
Proof. apply api_reachable_projects_ok. Qed.

Lemma X1_witness :
  dict_keys (projects (w_store file_world))
  = Z.of_nat <$> seq 1 (List.length (projects (w_store file_world)))
  ∧ dict_keys (files (w_store file_world)) = dict_keys (projects (w_store file_world))
  ∧ ∀ k p, dict_get (projects (w_store file_world)) k = Some p → Project.projectId p = k.
Proof. apply (X1_project_ids_sequential file_world), file_world_reachable. Defined.

(** ** Projects *)

(** A project record, once stored, is never written again. *)
Lemma project_stable_call c w w' k p :
  projects_ok (w_store w) → exec_call c w = Some w' →
  dict_get (projects (w_store w)) k = Some p →
  dict_get (projects (w_store w')) k = Some p.
Proof.
  intros Hok Hex Hk. destruct c as [ev|r]; simpl in Hex.
  - apply exec_projects in Hex.
    destruct ev as [[data now1 now2|data uuid|data|data uuid now|data]|i];
      [|by (destruct Hex as [-> _])..].
    subst w'. rewrite create_project_world. cbv zeta.
    cbn [snd w_store set_files set_projects projects].
    rewrite dict_get_set_ne; [done|]. intros <-.
    destruct (projects_ok_fresh _ Hok) as [Hfresh _]. congruence.
  - injection Hex as <-. destruct (serve_frame r w) as (_ & -> & _). done.
Qed.

Lemma project_stable tr w w' k p :
  projects_ok (w_store w) → run_calls tr w = Some w' →
  dict_get (projects (w_store w)) k = Some p →
  dict_get (projects (w_store w')) k = Some p.
Proof.
  revert w. induction tr as [|c tr IH]; intros w Hok Hrun Hk; simpl in Hrun.
  - by injection Hrun as <-.
  - destruct (exec_call c w) as [w1|] eqn:Hc; [|done]. simpl in Hrun.
    eapply IH; [by eapply exec_call_projects_ok | done |].
    by eapply project_stable_call.
Qed.

(** X2. A created project can be read back under the id the creation
    returned, after any later calls on the server: the id is one more
    than the number of projects before, and [read_projects] with that
    id returns exactly the record the creation returned. *)
Theorem X2_project_read_back w data now1 now2 tr w' rdata :
  api_reachable w →
  run_calls tr (snd (handle (CreateProject data now1 now2) w)) = Some w' →
  get rdata "projectId" = JInt (dict_len (projects (w_store w)) + 1) →
  ∃ p, response (CreateProject data now1 now2) w = Ok (ProjectsPayload true [p] [])
    ∧ Project.projectId p = dict_len (projects (w_store w)) + 1
    ∧ fst (serve (ReadProjects rdata) w') = Ok (Payload (ProjectsPayload true [p] [])).
Proof.
  intros Hreach Hrun Hid. apply api_reachable_projects_ok in Hreach as Hok.
  pose proof (create_project_ok data now1 now2 w Hok) as Hok1.
  eexists. split; [reflexivity|]. split; [reflexivity|].
  rewrite read_projects_eval, Hid. cbn [fst].
  assert (truthy (JInt (dict_len (projects (w_store w)) + 1)) = true) as ->.
  { simpl. apply negb_true_iff, Z.eqb_neq. unfold dict_len. lia. }
  match goal with |- context [ProjectsPayload true [?q] []] => set (p := q) end.
  assert (dict_get (projects (w_store w')) (dict_len (projects (w_store w)) + 1) = Some p)
    as Hp.
  { eapply project_stable; [exact Hok1 | exact Hrun |].
    rewrite create_project_world. cbv zeta.
    cbn [snd w_store set_files set_projects projects]. apply dict_get_set_eq. }
  unfold contains, getitem, dict_mem. simpl. by rewrite Hp.
Qed.

Lemma X2_witness :
  ∃ p, response (CreateProject [("name", JStr "Second")] "t1" "t2") file_world
       = Ok (ProjectsPayload true [p] [])
    ∧ Project.projectId p = dict_len (projects (w_store file_world)) + 1
    ∧ fst (serve (ReadProjects [("projectId", JInt 2)])
             (default init_world
                (run_calls [Api (CreateFile [("projectId", JInt 2); ("name", JStr "a")] "t3");
                            Job (Request (CreateProject [] "t4" "t5"))]
                   (snd (handle (CreateProject [("name", JStr "Second")] "t1" "t2")
                           file_world)))))
      = Ok (Payload (ProjectsPayload true [p] [])).
Proof.
  apply (X2_project_read_back file_world [("name", JStr "Second")] "t1" "t2"
           [Api (CreateFile [("projectId", JInt 2); ("name", JStr "a")] "t3");
            Job (Request (CreateProject [] "t4" "t5"))]).
  - apply file_world_reachable.
  - vm_compute. reflexivity.
  - vm_compute. reflexivity.
Defined.

(** X3. With a falsy [projectId] (omitted, null, 0, false, empty)
    [read_projects] lists every project, in the order of creation: the
    ids of the listed records are 1, 2, ..., n. *)
Theorem X3_project_listing w data :
  api_reachable w →
  truthy (get data "projectId") = false →
  ∃ ps, fst (serve (ReadProjects data) w) = Ok (Payload (ProjectsPayload true ps []))
    ∧ Project.projectId <$> ps = Z.of_nat <$> seq 1 (List.length (projects (w_store w)))
    ∧ ∀ k p, dict_get (projects (w_store w)) k = Some p → p ∈ ps.
Proof.
  intros Hreach Hfalsy. apply api_reachable_projects_ok in Hreach as (Hkeys & _ & Hid).
  rewrite read_projects_eval, Hfalsy. cbn [fst].
  eexists. split; [reflexivity|]. split.
  - rewrite (dict_values_by_key Project.projectId (λ k, k)).
    + by rewrite list_fmap_id.
    + rewrite Hkeys. apply NoDup_fmap_2; [|apply NoDup_seq].
      intros x y. lia.
    + done.
  - intros k p Hk. clear Hkeys Hid. unfold dict_values.
    induction (projects (w_store w)) as [|[k' p'] d IH]; [done|].
    simpl in Hk. csimpl. apply elem_of_cons.
    destruct (decide (k' = k)); [left; congruence | right; auto].
Qed.

Lemma X3_witness :
  ∃ ps, fst (serve (ReadProjects [("projectId", JInt 0)]) file_world)
        = Ok (Payload (ProjectsPayload true ps []))
    ∧ Project.projectId <$> ps
      = Z.of_nat <$> seq 1 (List.length (projects (w_store file_world)))
    ∧ ∀ k p, dict_get (projects (w_store file_world)) k = Some p → p ∈ ps.
Proof.
  apply (X3_project_listing file_world [("projectId", JInt 0)]).
  - apply file_world_reachable.
  - reflexivity.
Defined.

(** ** Files *)

Lemma contains_int_true {V} key (d : dict Z V) :
  contains as_int_key key d = Ok true →
  hashable key = true ∧ ∃ k, as_int_key key = Some k ∧ dict_mem d k = true.
Proof.
  unfold contains. destruct (hashable key); [|done].
  destruct (as_int_key key) as [k|]; [|done].
  intros [= Hm]. split; [done|]. by exists k.
Qed.

Lemma contains_hashable {K V} `{EqDecision K} (as_key : json → option K) key (d : dict K V) :
  hashable key = true → ∃ b, contains as_key key d = Ok b.
Proof. intros Hh. unfold contains. rewrite Hh. by eexists. Qed.

(** In a reachable world a known project has its list of files. *)
Lemma known_project_files s key :
  projects_ok s →
  contains as_int_key key (projects s) = Ok true →
  ∃ k fs, as_int_key key = Some k ∧ hashable key = true
    ∧ dict_get (files s) k = Some fs
    ∧ getitem as_int_key key (files s) = Ok fs.
Proof.
  intros (_ & Hfiles & _) Hknown.
  apply contains_int_true in Hknown as (Hh & k & Hk & Hm).
  apply dict_mem_keys in Hm. rewrite <- Hfiles in Hm.
  apply dict_mem_keys, dict_mem_true in Hm as [fs Hfs].
  exists k, fs. repeat split; try done.
  unfold getitem. rewrite Hh, Hk. simpl. by rewrite Hfs.
Qed.

Lemma find_snoc {A} (f : A → bool) l x :
  f x = true → List.find f (l ++ [x]) = Some (default x (List.find f l)).
Proof.
  intros Hx. induction l as [|y l IH]; simpl.
  - by rewrite Hx.
  - by destruct (f y).
Qed.

(** X4. Files are appended, never replaced, and a lookup by name
    returns the first match.  For a known project, [create_file] answers
    with the old list of files followed by the new file; reading the
    new file's name right afterwards returns the oldest file of that
    name, which is the new one only if the name was not in use. *)
Theorem X4_file_create_then_read w pid s now cdata rdata :
  api_reachable w →
  contains as_int_key pid (projects (w_store w)) = Ok true →
  get cdata "projectId" = pid → get cdata "name" = JStr s →
  get rdata "projectId" = pid → get rdata "fileName" = JStr s →
  s ≠ "" →
  let new := {| File.name := JStr s;
                File.content := get_default cdata "content" (JStr "");
                File.modified := now |} in
  ∃ fs, getitem as_int_key pid (files (w_store w)) = Ok fs
    ∧ fst (serve (CreateFile cdata now) w) = Ok (FilesPayload true (fs ++ [new]) [])
    ∧ fst (serve (ReadFiles rdata) (snd (serve (CreateFile cdata now) w)))
      = Ok (FilesPayload true
              [default new (List.find (λ f, py_eq (File.name f) (JStr s)) fs)] []).
Proof.
  intros Hreach Hknown Hcp Hcn Hrp Hrn Hs new.
  apply api_reachable_projects_ok in Hreach as Hok.
  destruct (known_project_files _ _ Hok Hknown) as (k & fs & Hk & Hh & Hfs & Hget).
  exists fs. split; [done|].
  assert (serve (CreateFile cdata now) w
          = (Ok (FilesPayload true (fs ++ [new]) []),
             {| w_store := set_files (dict_set (files (w_store w)) k (fs ++ [new])) (w_store w);
                w_threads := w_threads w |})) as Hcreate.
  { rewrite create_file_eval, Hcp, Hcn, Hknown.
    unfold append_item, getitem. rewrite Hh, Hk, Hfs. simpl.
    by rewrite dict_get_set_eq. }
  rewrite Hcreate. split; [done|].
  rewrite read_files_eval, Hrp, Hrn. cbn [fst snd w_store projects files set_files].
  rewrite Hknown. unfold getitem. rewrite Hh, Hk. simpl.
  rewrite dict_get_set_eq.
  destruct s as [|a s]; [done|]. cbn [truthy String.eqb negb].
  rewrite find_snoc; [done|]. simpl. by rewrite Ascii.eqb_refl, String.eqb_refl.
Qed.

Lemma X4_witness :
  let new := {| File.name := JStr "Main.cs";
                File.content := JStr "third";
                File.modified := "2024-01-01T00:00:05" |} in
  ∃ fs, getitem as_int_key (JInt 1) (files (w_store file_world)) = Ok fs
    ∧ fst (serve (CreateFile [("projectId", JInt 1); ("name", JStr "Main.cs");
                              ("content", JStr "third")] "2024-01-01T00:00:05") file_world)
      = Ok (FilesPayload true (fs ++ [new]) [])
    ∧ fst (serve (ReadFiles [("projectId", JInt 1); ("fileName", JStr "Main.cs")])
             (snd (serve (CreateFile [("projectId", JInt 1); ("name", JStr "Main.cs");
                                      ("content", JStr "third")] "2024-01-01T00:00:05")
                     file_world)))
      = Ok (FilesPayload true
              [default new (List.find (λ f, py_eq (File.name f) (JStr "Main.cs")) fs)] []).
Proof.
  apply (X4_file_create_then_read file_world (JInt 1) "Main.cs" "2024-01-01T00:00:05"
           [("projectId", JInt 1); ("name", JStr "Main.cs"); ("content", JStr "third")]
           [("projectId", JInt 1); ("fileName", JStr "Main.cs")]).
  - apply file_world_reachable.
  - vm_compute. reflexivity.
  - reflexivity.
  - reflexivity.
  - reflexivity.
  - reflexivity.
  - discriminate.
Defined.

(** X5. The file handlers never fail on a lookup: in every reachable
    world, for every [projectId] that can be hashed, [create_file] and
    [read_files] return a payload (the [files[project_id]] they index
    after the membership test is always there). *)
Theorem X5_file_handlers_return w data now :
  api_reachable w →
  hashable (get data "projectId") = true →
  (∃ success fs errors,
     fst (serve (CreateFile data now) w) = Ok (FilesPayload success fs errors))
  ∧ (∃ success fs errors,
       fst (serve (ReadFiles data) w) = Ok (FilesPayload success fs errors)).
Proof.
  intros Hreach Hh. apply api_reachable_projects_ok in Hreach as Hok.
  rewrite create_file_eval, read_files_eval.
  destruct (contains_hashable as_int_key _ (projects (w_store w)) Hh) as [[] Hknown];
    rewrite Hknown; [|by split; eexists _, _, _].
  destruct (known_project_files _ _ Hok Hknown) as (k & fs & Hk & _ & Hfs & Hget).
  split.
  - unfold append_item, getitem. rewrite Hh, Hk, Hfs. simpl.
    rewrite dict_get_set_eq. by eexists _, _, _.
  - rewrite Hget. cbn [fst]. destruct (truthy _); [|by eexists _, _, _].
    destruct (find _ _); by eexists _, _, _.
Qed.

Lemma X5_witness :
  (∃ success fs errors,
     fst (serve (CreateFile [("projectId", JBool true); ("name", JStr "b")] "t") file_world)
     = Ok (FilesPayload success fs errors))
  ∧ (∃ success fs errors,
       fst (serve (ReadFiles [("projectId", JBool true); ("name", JStr "b")]) file_world)
       = Ok (FilesPayload success fs errors)).
Proof.
  apply (X5_file_handlers_return file_world [("projectId", JBool true); ("name", JStr "b")] "t").
  - apply file_world_reachable.
  - reflexivity.
Defined.

(** X6. Beside [create_file] no request outside the job core changes
    the world at all (a live deployment is not recorded anywhere); and
    [create_file] changes neither projects, job records nor threads,
    nor the files of any project but the one it names. *)
Theorem X6_other_requests_frame r w :
  match r with
  | CreateFile data _ =>
      w_threads (snd (serve r w)) = w_threads w
      ∧ projects (w_store (snd (serve r w))) = projects (w_store w)
      ∧ compiles (w_store (snd (serve r w))) = compiles (w_store w)
      ∧ backtests (w_store (snd (serve r w))) = backtests (w_store w)
      ∧ ∀ k, as_int_key (get data "projectId") ≠ Some k →
             dict_get (files (w_store (snd (serve r w)))) k = dict_get (files (w_store w)) k
  | _ => snd (serve r w) = w
  end.
Proof.
  destruct (serve_frame r w) as (Ht & Hp & Hc & Hb & _ & Hrest).
  by destruct r.
Qed.

Lemma X6_witness :
  snd (serve (CreateLive [("projectId", JInt 1)] uuid1 "t") file_world) = file_world.
Proof. exact (X6_other_requests_frame (CreateLive [("projectId", JInt 1)] uuid1 "t") file_world). Defined.

(** ** Jobs: all of them end as they should *)

Lemma finished_pc th :
  finished th = true → th_pc th = program_length (th_runner th).
Proof.
  unfold finished. intros Hf. apply andb_true_iff in Hf as [Hpc _].
  by apply Nat.eqb_eq in Hpc.
Qed.

(** Every record of the compile store has its runner in the thread
    pool, and is the record that runner has produced so far. *)
Lemma compile_record w id c :
  inv w → dict_get (compiles (w_store w)) id = Some c →
  ∃ i th,
    w_threads w !! i = Some th
    ∧ th_runner th = CompileRunner id
    ∧ (th_pc th ≤ List.length simulate_compilation)%nat
    ∧ c = record_after simulate_compilation (th_pc th) (new_compile id).
Proof.
  intros Hinv Hc.
  destruct (inv_compiles _ Hinv id) as [_ Hin]; [by eapply dict_get_keys|].
  apply list_elem_of_fmap in Hin as (th & Hr & Hin).
  apply list_elem_of_lookup in Hin as [i Hi].
  destruct (inv_threads _ Hinv _ _ Hi) as [_ Hok]. rewrite <- Hr in Hok.
  destruct Hok as [Hpc Hget].
  exists i, th. repeat split; try done. congruence.
Qed.

(** X7. No job is disturbed by another: in every reachable world in
    which all runner threads have finished, every backtest record is
    completed with progress 1.0 and the terminal result, and every
    compile record is in state ["BuildSuccess"] with the two-line log. *)
Theorem X7_all_jobs_end_right w :
  api_reachable w → all_finished w →
  (∀ id b, dict_get (backtests (w_store w)) id = Some b →
     Backtest.completed b = true
     ∧ Backtest.progress b = F64.lit_1_0
     ∧ terminal_result (Backtest.result b))
  ∧ (∀ id c, dict_get (compiles (w_store w)) id = Some c →
       Compile.state c = "BuildSuccess"
       ∧ Compile.logs c = ["Compilation started"; "Compilation completed successfully"]).
Proof.
  intros Hreach Hall. apply api_reachable_inv in Hreach as Hinv. split.
  - intros id b Hb.
    destruct (backtest_record _ _ _ Hinv Hb)
      as (i & th & name & now & Hi & Hr & _ & Hpc & ->).
    apply Hall, finished_pc in Hi. rewrite Hr in Hi. simpl in Hi.
    destruct (backtest_stages name id now (th_pc th) Hpc)
      as (Hcompleted & Hprogress & _ & Hterminal & _).
    split; [apply Hcompleted; lia|]. split; [apply Hprogress; lia | by apply Hterminal].
  - intros id c Hc.
    destruct (compile_record _ _ _ Hinv Hc) as (i & th & Hi & Hr & Hpc & ->).
    apply Hall, finished_pc in Hi. rewrite Hr in Hi. simpl in Hi.
    destruct (compile_stages id (th_pc th) Hpc) as (_ & Hstate & _ & Hlogs).
    split; [apply Hstate; lia | by apply Hlogs].
Qed.

Lemma session_world_api_reachable n m :
  is_Some (run (session ++ replicate n (Tick 0) ++ replicate m (Tick 1)) init_world) →
  api_reachable (session_world n m).
Proof. intros H. by apply reachable_api_reachable, session_world_reachable. Qed.

Lemma X7_witness :
  (∀ id b, dict_get (backtests (w_store (session_world 26 3))) id = Some b →
     Backtest.completed b = true
     ∧ Backtest.progress b = F64.lit_1_0
     ∧ terminal_result (Backtest.result b))
  ∧ (∀ id c, dict_get (compiles (w_store (session_world 26 3))) id = Some c →
       Compile.state c = "BuildSuccess"
       ∧ Compile.logs c = ["Compilation started"; "Compilation completed successfully"]).
Proof.
  apply (X7_all_jobs_end_right (session_world 26 3)).
  - apply session_world_api_reachable. vm_compute. eauto.
  - intros i th Hi. destruct i as [|[|i]]; vm_compute in Hi; [| |done];
      injection Hi as <-; reflexivity.
Defined.

(** A step of a thread replaces that thread and no other. *)
Lemma tick_other k w w' i :
  exec (Tick k) w = Some w' → i ≠ k → w_threads w' !! i = w_threads w !! i.
Proof.
  simpl. destruct (w_threads w !! k) as [th|]; [|done]. simpl.
  destruct (thread_step th (w_store w)) as [[th' s']|]; [|done].
  intros [= <-] Hne. simpl. by apply list_lookup_insert_ne.
Qed.

Lemma ticks_other n k w w' i :
  run (replicate n (Tick k)) w = Some w' → i ≠ k →
  w_threads w' !! i = w_threads w !! i.
Proof.
  revert w. induction n as [|n IH]; intros w Hrun Hne.
  - by injection Hrun as <-.
  - change (run (replicate (S n) (Tick k)) w)
      with (exec (Tick k) w ≫= run (replicate n (Tick k))) in Hrun.
    destruct (exec (Tick k) w) as [w1|] eqn:Hex; [|done]. simpl in Hrun.
    rewrite (IH w1 Hrun Hne). by eapply tick_other.
Qed.

Lemma finish_from ths k w :
  inv w →
  (∀ i, ths !! i = w_threads w !! (k + i)%nat) →
  (∀ i th, (i < k)%nat → w_threads w !! i = Some th → finished th = true) →
  ∃ w', run (mjoin (imap (λ i th, replicate (remaining th) (Tick (k + i))) ths)) w = Some w'
        ∧ all_finished w'.
Proof.
  revert k w. induction ths as [|th ths IH]; intros k w Hinv Hths Hdone.
  - exists w. split; [done|]. intros i th Hi.
    destruct (decide (i < k)%nat) as [Hlt|Hge]; [by eapply Hdone|].
    specialize (Hths (i - k)%nat). replace (k + (i - k))%nat with i in Hths by lia.
    rewrite lookup_nil in Hths. congruence.
  - pose proof (Hths 0%nat) as Hk. rewrite Nat.add_0_r in Hk. simpl in Hk. symmetry in Hk.
    destruct (runner_completes w k th Hinv Hk) as (w1 & th' & Hrun & Hk1 & _ & Hfin).
    destruct (IH (S k) w1) as (w' & Hrun' & Hall).
    + by eapply run_inv.
    + intros i. rewrite (ticks_other _ _ _ _ (S k + i) Hrun) by lia.
      specialize (Hths (S i)). simpl in Hths. rewrite Hths. f_equal. lia.
    + intros i th2 Hlt Hi. destruct (decide (i = k)) as [->|Hne].
      * congruence.
      * rewrite (ticks_other _ _ _ _ i Hrun Hne) in Hi. apply (Hdone i); [lia | done].
    + exists w'. split; [|done].
      assert (mjoin (imap (λ i th, replicate (remaining th) (Tick (k + i))) (th :: ths))
              = replicate (program_length (th_runner th) - th_pc th) (Tick k)
                ++ mjoin (imap (λ i th, replicate (remaining th) (Tick (S k + i))) ths))
        as ->.
      { rewrite imap_cons. cbn [mjoin list_join]. cbv beta. rewrite Nat.add_0_r.
        unfold remaining at 1. f_equal. f_equal. apply imap_ext.
        intros i x _. simpl. by rewrite Nat.add_succ_r. }
      rewrite run_app, Hrun. exact Hrun'.
Qed.

(** X8. Every job can be brought to its end: from every reachable
    world, running the threads to completion one after the other is a
    schedule the server accepts, and it ends in a world in which every
    thread has finished. *)
Theorem X8_all_runners_complete w :
  api_reachable w →
  ∃ w', run (finish_all (w_threads w)) w = Some w' ∧ all_finished w'.
Proof.
  intros Hreach. apply api_reachable_inv in Hreach as Hinv.
  apply (finish_from (w_threads w) 0 w Hinv); [done|]. intros i th Hlt. lia.
Qed.

Lemma X8_witness :
  ∃ w', run (finish_all (w_threads (session_world 5 1))) (session_world 5 1) = Some w'
        ∧ all_finished w'.
Proof.
  apply (X8_all_runners_complete (session_world 5 1)).
  apply session_world_api_reachable. vm_compute. eauto.
Defined.

(** X9. A runner never ends by an exception: in every reachable world
    each thread is alive, and as long as it has instructions left its
    next instruction can be executed (the record it writes to is in the
    store) and takes it one instruction further. *)
Theorem X9_runners_never_raise w i th :
  api_reachable w →
  w_threads w !! i = Some th →
  th_exn th = None
  ∧ (th_pc th ≤ program_length (th_runner th))%nat
  ∧ ((th_pc th < program_length (th_runner th))%nat →
     ∃ w', exec (Tick i) w = Some w' ∧ w_threads w' !! i = Some (advance th)).
Proof.
  intros Hreach Hi. apply api_reachable_inv in Hreach as Hinv.
  destruct (inv_threads _ Hinv _ _ Hi) as [Hexn Hok].
  split; [done|]. split.
  - destruct (th_runner th); simpl; apply Hok.
  - by apply tick_enabled.
Qed.

Lemma X9_witness :
  th_exn {| th_runner := BacktestRunner uuid1; th_pc := 5; th_exn := None |} = None
  ∧ (5 ≤ program_length (BacktestRunner uuid1))%nat
  ∧ ((5 < program_length (BacktestRunner uuid1))%nat →
     ∃ w', exec (Tick 0) (session_world 5 1) = Some w'
       ∧ w_threads w' !! 0%nat
         = Some (advance {| th_runner := BacktestRunner uuid1; th_pc := 5; th_exn := None |})).
Proof.
  apply (X9_runners_never_raise (session_world 5 1) 0
           {| th_runner := BacktestRunner uuid1; th_pc := 5; th_exn := None |}).
  - apply session_world_api_reachable. vm_compute. eauto.
  - vm_compute. reflexivity.
Defined.

(** ** Jobs: what a record keeps for life *)

(** No instruction of [simulate_backtest] touches the identity of the
    record it writes to. *)
Lemma simulate_backtest_identity :
  Forall (λ i, ∀ r, backtest_identity (apply_instr r i) = backtest_identity r)
    simulate_backtest.
Proof.
  unfold simulate_backtest. apply Forall_app. split.
  - apply Forall_flat_map, Forall_forall. intros z _.
    repeat constructor.
  - repeat constructor.
Qed.

Lemma record_after_identity pc r :
  backtest_identity (record_after simulate_backtest pc r) = backtest_identity r.
Proof.
  unfold record_after.
  assert (Forall (λ i, ∀ r, backtest_identity (apply_instr r i) = backtest_identity r)
            (take pc simulate_backtest)) as Hall
    by apply Forall_take, simulate_backtest_identity.
  revert r. induction Hall as [|i l Hi _ IH]; intros r; simpl; [done|].
  by rewrite IH, Hi.
Qed.

(** A call moves a backtest record either not at all or by the next
    instruction of its runner. *)
Lemma backtest_step_call c w w' id b :
  inv w → exec_call c w = Some w' →
  dict_get (backtests (w_store w)) id = Some b →
  ∃ name now pc,
    (pc ≤ 26)%nat
    ∧ b = record_after simulate_backtest pc (new_backtest name id now)
    ∧ (dict_get (backtests (w_store w')) id = Some b
       ∨ ((pc < 26)%nat
          ∧ dict_get (backtests (w_store w')) id
            = Some (record_after simulate_backtest (S pc) (new_backtest name id now)))).
Proof.
  intros Hinv Hex Hb. destruct c as [ev|r]; simpl in Hex.
  - by eapply backtest_step.
  - injection Hex as <-. destruct (serve_frame r w) as (_ & _ & _ & -> & _).
    destruct (backtest_record _ _ _ Hinv Hb) as (i & th & name & now & _ & _ & _ & Hpc & ->).
    exists name, now, (th_pc th). split; [done|]. split; [done|]. by left.
Qed.

(** X10. A backtest record keeps its identity for life: in every
    reachable world the record stored under an id carries that id, has
    [success = True], no errors, and empty [note], [error], [stacktrace],
    [Charts], [Orders] and [Statistics]; and no call on the server
    changes any of these, nor its name or its creation time. *)
Theorem X10_backtest_identity_fixed w c w' id b :
  api_reachable w →
  exec_call c w = Some w' →
  dict_get (backtests (w_store w)) id = Some b →
  Backtest.backtestId b = id
  ∧ Backtest.success b = true
  ∧ Backtest.errors b = []
  ∧ (Backtest.note b, Backtest.error b, Backtest.stacktrace b) = ("", "", "")
  ∧ (Backtest.Charts (Backtest.result b), Backtest.Orders (Backtest.result b),
     Backtest.Statistics (Backtest.result b)) = ([], [], [])
  ∧ ∃ b', dict_get (backtests (w_store w')) id = Some b'
      ∧ backtest_identity b' = backtest_identity b.
Proof.
  intros Hreach Hex Hb. apply api_reachable_inv in Hreach as Hinv.
  destruct (backtest_step_call _ _ _ _ _ Hinv Hex Hb) as (name & now & pc & _ & -> & Hnext).
  pose proof (record_after_identity pc (new_backtest name id now)) as Hid.
  unfold backtest_identity in Hid. simpl in Hid.
  injection Hid as Hname Hnote Hbid Herror Hstack Hcreated Hsuccess Herrors Hcharts Horders Hstats.
  split; [done|]. split; [done|]. split; [done|].
  split; [by rewrite Hnote, Herror, Hstack|].
  split; [by rewrite Hcharts, Horders, Hstats|].
  destruct Hnext as [Hsame|[_ Hadv]].
  - eexists. by split.
  - eexists. split; [done|]. by rewrite !record_after_identity.
Qed.

Lemma X10_witness :
  Backtest.backtestId (session_backtest 22 1) = uuid1
  ∧ Backtest.success (session_backtest 22 1) = true
  ∧ Backtest.errors (session_backtest 22 1) = []
  ∧ (Backtest.note (session_backtest 22 1), Backtest.error (session_backtest 22 1),
     Backtest.stacktrace (session_backtest 22 1)) = ("", "", "")
  ∧ (Backtest.Charts (Backtest.result (session_backtest 22 1)),
     Backtest.Orders (Backtest.result (session_backtest 22 1)),
     Backtest.Statistics (Backtest.result (session_backtest 22 1))) = ([], [], [])
  ∧ ∃ b', dict_get (backtests (w_store (session_world 23 1))) uuid1 = Some b'
      ∧ backtest_identity b' = backtest_identity (session_backtest 22 1).
Proof.
  apply (X10_backtest_identity_fixed (session_world 22 1) (Job (Tick 0)) (session_world 23 1)
           uuid1 (session_backtest 22 1)).
  - apply session_world_api_reachable. vm_compute. eauto.
  - vm_compute. reflexivity.
  - vm_compute. reflexivity.
Defined.

(** An event moves a compile record either not at all or by the next
    instruction of its runner. *)
Lemma compile_step_call c w w' id r :
  inv w → exec_call c w = Some w' →
  dict_get (compiles (w_store w)) id = Some r →
  ∃ pc,
    (pc ≤ 3)%nat
    ∧ r = record_after simulate_compilation pc (new_compile id)
    ∧ (dict_get (compiles (w_store w')) id = Some r
       ∨ ((pc < 3)%nat
          ∧ dict_get (compiles (w_store w')) id
            = Some (record_after simulate_compilation (S pc) (new_compile id)))).
Proof.
  intros Hinv Hex Hr.
  destruct (compile_record _ _ _ Hinv Hr) as (i & th & Hi & Hrun & Hpc & Hreq).
  exists (th_pc th). split; [done|]. split; [done|].
  destruct c as [[rq|j]|rq]; simpl in Hex.
  - destruct (uuid_ok rq (w_store w)) eqn:Hok; [|done]. injection Hex as <-.
    destruct (request_frame rq w Hinv Hok) as (_ & Hframe & _). left. by apply Hframe.
  - destruct (decide (i = j)) as [->|Hne].
    + rewrite Hi in Hex. simpl in Hex.
      destruct (thread_step th (w_store w)) as [[th' s']|] eqn:Hstep; [|done].
      injection Hex as <-. simpl.
      destruct (thread_step_compile _ _ _ (inv_threads _ Hinv _ _ Hi) Hrun _ _ Hstep)
        as (ins & d' & Hins & -> & -> & Hget' & _).
      apply lookup_lt_Some in Hins. simpl in Hins. right. split; [lia | done].
    + assert (exec (Tick j) w = Some w') as Hex' by done.
      destruct (tick_frame _ _ _ _ _ Hinv Hex' Hi Hne) as [_ Hframe].
      rewrite Hrun in Hframe. left. congruence.
  - injection Hex as <-. destruct (serve_frame rq w) as (_ & _ & -> & _). by left.
Qed.

(** X11. A compile record only moves forward: in every reachable world
    it carries the id it is stored under, [success = True] and no
    errors, and its state is ["InQueue"] or ["BuildSuccess"]; across any
    call its log only grows at the end and the state ["BuildSuccess"],
    once reached, stays. *)
Theorem X11_compile_moves_forward w c w' id r :
  api_reachable w →
  exec_call c w = Some w' →
  dict_get (compiles (w_store w)) id = Some r →
  Compile.compileId r = id
  ∧ Compile.success r = true
  ∧ Compile.errors r = []
  ∧ (Compile.state r = "InQueue" ∨ Compile.state r = "BuildSuccess")
  ∧ ∃ r', dict_get (compiles (w_store w')) id = Some r'
      ∧ Compile.logs r `prefix_of` Compile.logs r'
      ∧ (Compile.state r = "BuildSuccess" → Compile.state r' = "BuildSuccess").
Proof.
  intros Hreach Hex Hr. apply api_reachable_inv in Hreach as Hinv.
  destruct (compile_step_call _ _ _ _ _ Hinv Hex Hr) as (pc & Hpc & -> & Hnext).
  assert (∀ pc, (pc ≤ 3)%nat →
            let r := record_after simulate_compilation pc (new_compile id) in
            let r' := record_after simulate_compilation (S pc) (new_compile id) in
            Compile.compileId r = id ∧ Compile.success r = true ∧ Compile.errors r = []
            ∧ (Compile.state r = "InQueue" ∨ Compile.state r = "BuildSuccess")
            ∧ Compile.logs r `prefix_of` Compile.logs r'
            ∧ (Compile.state r = "BuildSuccess" → Compile.state r' = "BuildSuccess"))
    as Hstages.
  { clear. intros pc Hpc.
    do 4 (destruct pc as [|pc];
          [vm_compute; repeat split; auto; try discriminate;
           first [by eexists [] | by eexists [_]] |]).
    exfalso. lia. }
  destruct (Hstages pc Hpc) as (Hid & Hsucc & Herr & Hstate & Hlogs & Hstay).
  repeat split; try done.
  destruct Hnext as [Hsame|[_ Hadv]]; eexists; (split; [done|]); by split.
Qed.

Lemma X11_witness :
  Compile.compileId (session_compile 3 1) = uuid2
  ∧ Compile.success (session_compile 3 1) = true
  ∧ Compile.errors (session_compile 3 1) = []
  ∧ (Compile.state (session_compile 3 1) = "InQueue"
     ∨ Compile.state (session_compile 3 1) = "BuildSuccess")
  ∧ ∃ r', dict_get (compiles (w_store (session_world 3 2))) uuid2 = Some r'
      ∧ Compile.logs (session_compile 3 1) `prefix_of` Compile.logs r'
      ∧ (Compile.state (session_compile 3 1) = "BuildSuccess" →
         Compile.state r' = "BuildSuccess").
Proof.
  apply (X11_compile_moves_forward (session_world 3 1) (Job (Tick 1)) (session_world 3 2)
           uuid2 (session_compile 3 1)).
  - apply session_world_api_reachable. vm_compute. eauto.
  - vm_compute. reflexivity.
  - vm_compute. reflexivity.
Defined.

(** ** Nothing is ever deleted *)

Lemma exec_instr_mem {R} (i : instr R) id (d d' : dict string R) k :
  exec_instr i id d = Ok d' → dict_mem d k = true → dict_mem d' k = true.
Proof.
  destruct i as [secs|f]; simpl.
  - by intros [= <-].
  - destruct (dict_get d id); [|done]. intros [= <-]. apply dict_mem_set.
Qed.

Lemma keys_mem {K V} `{EqDecision K} (d d' : dict K V) k :
  dict_keys d' = dict_keys d → dict_mem d k = true → dict_mem d' k = true.
Proof. intros Hk. rewrite !dict_mem_keys. by rewrite Hk. Qed.

(** X12. The server never deletes anything: whatever the world, after
    any call every project, every list of files, every compile job and
    every backtest job that was in the stores is still there. *)
Theorem X12_nothing_deleted c w w' :
  exec_call c w = Some w' →
  (∀ k, dict_mem (projects (w_store w)) k = true → dict_mem (projects (w_store w')) k = true)
  ∧ (∀ k, dict_mem (files (w_store w)) k = true → dict_mem (files (w_store w')) k = true)
  ∧ (∀ k, dict_mem (compiles (w_store w)) k = true → dict_mem (compiles (w_store w')) k = true)
  ∧ (∀ k, dict_mem (backtests (w_store w)) k = true →
          dict_mem (backtests (w_store w')) k = true).
Proof.
  destruct c as [[rq|j]|rq]; simpl.
  - destruct (uuid_ok rq (w_store w)); [|done]. intros [= <-].
    destruct rq as [data now1 now2|data uuid|data|data uuid now|data].
    + rewrite create_project_world. cbv zeta. simpl.
      repeat split; try done; intros k; apply dict_mem_set.
    + rewrite create_compile_world. destruct (contains _ _ _) as [[]|]; simpl; try done.
      repeat split; try done. intros k; apply dict_mem_set.
    + by rewrite read_compile_eval.
    + rewrite create_backtest_world. destruct (contains _ _ _) as [[]|]; simpl; try done.
      repeat split; try done. intros k; apply dict_mem_set.
    + by rewrite read_backtest_eval.
  - destruct (w_threads w !! j) as [th|]; [|done]. simpl.
    destruct (thread_step th (w_store w)) as [[th' s']|] eqn:Hstep; [|done].
    intros [= <-]. simpl. unfold thread_step in Hstep.
    destruct (th_exn th); [done|].
    destruct (th_runner th) as [id|id].
    + destruct (simulate_compilation !! th_pc th) as [i|]; [|done]. simpl in Hstep.
      destruct (exec_instr _ _ _) as [d'|e] eqn:Hi; injection Hstep as <- <-; [|done].
      repeat split; try done. intros k. by eapply exec_instr_mem.
    + destruct (simulate_backtest !! th_pc th) as [i|]; [|done]. simpl in Hstep.
      destruct (exec_instr _ _ _) as [d'|e] eqn:Hi; injection Hstep as <- <-; [|done].
      repeat split; try done. intros k. by eapply exec_instr_mem.
  - intros [= <-]. destruct (serve_frame rq w) as (_ & -> & -> & -> & Hf & _).
    repeat split; try done. intros k. by apply keys_mem.
Qed.

Lemma X12_witness :
  dict_mem (backtests (w_store (session_world 1 0))) uuid1 = true.
Proof.
  apply (proj2 (proj2 (proj2
           (X12_nothing_deleted (Job (Tick 0)) (session_world 0 0) (session_world 1 0)
              ltac:(vm_compute; reflexivity))))).
  vm_compute. reflexivity.
Defined.

(** ** Creating a job and reading it back *)

(** X13. A job can be read back at once under the id it was given:
    when the project is known, reading the new compile id, or the new
    backtest id, right after the creation returns the very payload the
    creation returned. *)
Theorem X13_job_create_then_read w data uuid now cdata bdata :
  contains as_int_key (get data "projectId") (projects (w_store w)) = Ok true →
  uuid ≠ "" →
  get cdata "compileId" = JStr uuid →
  get bdata "backtestId" = JStr uuid →
  (response (ReadCompile cdata) (snd (handle (CreateCompile data uuid) w))
   = response (CreateCompile data uuid) w
   ∧ response (CreateCompile data uuid) w = Ok (CompilePayload (new_compile uuid)))
  ∧ (response (ReadBacktest bdata) (snd (handle (CreateBacktest data uuid now) w))
     = response (CreateBacktest data uuid now) w
     ∧ response (CreateBacktest data uuid now) w
       = Ok (BacktestPayload
               (new_backtest (get_default data "backtestName" (JStr "Untitled Backtest"))
                  uuid now))).
Proof.
  intros Hknown Hu Hc Hb. unfold response.
  rewrite create_compile_world, create_backtest_world, Hknown. cbv zeta. cbn [fst snd].
  split; (split; [|done]).
  - rewrite read_compile_eval, Hc. cbn [fst w_store compiles set_compiles].
    unfold contains, getitem, dict_mem. simpl. by rewrite dict_get_set_eq.
  - rewrite read_backtest_eval, Hb. cbn [fst w_store backtests set_backtests].
    assert (truthy (JStr uuid) = true) as ->.
    { destruct uuid; [done | reflexivity]. }
    unfold contains, getitem, dict_mem. simpl. by rewrite dict_get_set_eq.
Qed.

Lemma X13_witness :
  (response (ReadCompile [("compileId", JStr uuid1)])
     (snd (handle (CreateCompile [("projectId", JInt 1)] uuid1) file_world))
   = response (CreateCompile [("projectId", JInt 1)] uuid1) file_world
   ∧ response (CreateCompile [("projectId", JInt 1)] uuid1) file_world
     = Ok (CompilePayload (new_compile uuid1)))
  ∧ (response (ReadBacktest [("backtestId", JStr uuid1)])
       (snd (handle (CreateBacktest [("projectId", JInt 1)] uuid1 "t") file_world))
     = response (CreateBacktest [("projectId", JInt 1)] uuid1 "t") file_world
     ∧ response (CreateBacktest [("projectId", JInt 1)] uuid1 "t") file_world
       = Ok (BacktestPayload
               (new_backtest (get_default [("projectId", JInt 1)] "backtestName"
                                (JStr "Untitled Backtest"))
                  uuid1 "t"))).
Proof.
  apply (X13_job_create_then_read file_world [("projectId", JInt 1)] uuid1 "t"
           [("compileId", JStr uuid1)] [("backtestId", JStr uuid1)]).
  - vm_compute. reflexivity.
  - discriminate.
  - reflexivity.
  - reflexivity.
Defined.

(** ** Ids that cannot be hashed *)

Lemma contains_unhashable {K V} `{EqDecision K} (as_key : json → option K) v (d : dict K V) :
  hashable v = false → contains as_key v d = Raise TypeError.
Proof. intros Hv. unfold contains. by rewrite Hv. Qed.

(** X14. A JSON list or object in the place of an id is not answered
    with an error payload: the membership test raises [TypeError], in
    every handler that makes one, and the world is left as it was.  The
    two handlers that first test the id for truth, [read_backtest] and
    [read_projects], raise only when the value is truthy (non-empty). *)
Theorem X14_unhashable_id_raises w v data uuid now :
  hashable v = false →
  (get data "projectId" = v →
   handle (CreateCompile data uuid) w = (Raise TypeError, w)
   ∧ handle (CreateBacktest data uuid now) w = (Raise TypeError, w)
   ∧ serve (CreateFile data now) w = (Raise TypeError, w)
   ∧ serve (ReadFiles data) w = (Raise TypeError, w)
   ∧ serve (CreateLive data uuid now) w = (Raise TypeError, w)
   ∧ serve (ReadProjects data) w
     = (if truthy v then Raise TypeError
        else Ok (Payload (ProjectsPayload true (dict_values (projects (w_store w))) [])), w))
  ∧ (get data "compileId" = v → handle (ReadCompile data) w = (Raise TypeError, w))
  ∧ (get data "backtestId" = v → truthy v = true →
     handle (ReadBacktest data) w = (Raise TypeError, w)).
Proof.
  intros Hv. split; [|split].
  - intros Hp.
    rewrite create_compile_world, create_backtest_world, create_file_eval, read_files_eval,
      create_live_eval, read_projects_eval, Hp, !contains_unhashable by done.
    repeat split; by destruct (truthy v).
  - intros Hc. by rewrite read_compile_eval, Hc, contains_unhashable.
  - intros Hb Ht. by rewrite read_backtest_eval, Hb, Ht, contains_unhashable.
Qed.

Lemma X14_witness :
  handle (ReadBacktest [("backtestId", JArr [JStr uuid1])]) file_world
  = (Raise TypeError, file_world).
Proof.
  apply (proj2 (proj2 (X14_unhashable_id_raises file_world (JArr [JStr uuid1])
                         [("backtestId", JArr [JStr uuid1])] uuid1 "t" eq_refl))).
  - reflexivity.
  - reflexivity.
Defined.

(** ** The token check *)

Lemma prefix_slice p s :
  String.prefix p s = true → s = String.append p (slice_from (String.length p) s).
Proof.
  revert s. induction p as [|a p IH]; intros s Hp; [reflexivity|].
  destruct s as [|b s]; [by vm_compute in Hp|].
  change (String.prefix (String a p) (String b s))
    with (if Ascii.ascii_dec a b then String.prefix p s else false) in Hp.
  change (String b s = String a (String.append p (slice_from (String.length p) s))).
  destruct (Ascii.ascii_dec a b) as [->|]; [|done].
  f_equal. by apply IH.
Qed.

(** X15. The token check accepts exactly two header values: it
    returns true if and only if the [Authorization] header is
    ["Bearer demo-token-123"] or ["Bearer test-token-456"]; a missing or
    empty header, another scheme, other capitals or a padded token are
    all refused. *)
Theorem X15_authenticate_accepts auth_header :
  authenticate auth_header = true
  ↔ auth_header = Some "Bearer demo-token-123"
    ∨ auth_header = Some "Bearer test-token-456".
Proof.
  split.
  - destruct auth_header as [h|]; [|done]. unfold authenticate.
    destruct (String.eqb h ""); [done|].
    destruct (String.prefix "Bearer " h) eqn:Hp; [|done].
    apply prefix_slice in Hp. simpl String.length in Hp.
    intros Htok. apply bool_decide_eq_true in Htok.
    unfold VALID_TOKENS in Htok. rewrite !elem_of_cons, elem_of_nil in Htok.
    destruct Htok as [Htok|[Htok|[]]]; rewrite Htok in Hp; rewrite Hp; auto.
  - intros [->| ->]; reflexivity.
Qed.

Lemma X15_witness : authenticate (Some "Bearer test-token-456") = true.
Proof. apply (proj2 (X15_authenticate_accepts (Some "Bearer test-token-456"))). by right. Defined.

(** ** The health check *)

Lemma filter_insert_length {A} (f : A → bool) l j x x' :
  l !! j = Some x → f x' = f x →
  List.length (List.filter f (<[j:=x']> l)) = List.length (List.filter f l).
Proof.
  revert j. induction l as [|y l IH]; intros j Hj Hf; [done|].
  destruct j as [|j]; simpl in *.
  - injection Hj as ->. rewrite Hf. by destruct (f x).
  - destruct (f y); simpl; by rewrite (IH j).
Qed.

Lemma exec_instr_length {R} (i : instr R) id (d d' : dict string R) :
  exec_instr i id d = Ok d' → List.length d' = List.length d.
Proof.
  destruct i as [secs|f]; simpl.
  - by intros [= <-].
  - destruct (dict_get d id) as [r|] eqn:Hr; [|done]. intros [= <-].
    rewrite dict_length_set.
    replace (dict_mem d id) with true; [done|].
    symmetry. apply dict_mem_true. by exists r.
Qed.

Lemma thread_step_counts th s th' s' :
  thread_step th s = Some (th', s') →
  th_runner th' = th_runner th
  ∧ List.length (backtests s') = List.length (backtests s).
Proof.
  unfold thread_step. destruct (th_exn th); [done|].
  destruct (th_runner th) as [id|id] eqn:Hr.
  - destruct (simulate_compilation !! th_pc th) as [i|]; [|done]. simpl.
    destruct (exec_instr _ _ _); by intros [= <- <-].
  - destruct (simulate_backtest !! th_pc th) as [i|]; [|done]. simpl.
    destruct (exec_instr _ _ _) as [d'|e] eqn:Hi; intros [= <- <-]; [|done].
    split; [done|]. simpl. by eapply exec_instr_length.
Qed.

(** The backtest store has one record for each thread that
    [create_backtest] started. *)
Lemma exec_call_counts c w w' :
  List.length (backtests (w_store w)) = backtest_threads w →
  exec_call c w = Some w' →
  List.length (backtests (w_store w')) = backtest_threads w'.
Proof.
  unfold backtest_threads. intros Hcount. destruct c as [[rq|j]|rq]; simpl.
  - destruct (uuid_ok rq (w_store w)) eqn:Hok; [|done]. intros [= <-].
    destruct rq as [data now1 now2|data uuid|data|data uuid now|data].
    + done.
    + rewrite create_compile_world. destruct (contains _ _ _) as [[]|]; simpl; try done.
      by rewrite List.filter_app, length_app, Nat.add_0_r.
    + by rewrite read_compile_eval.
    + rewrite create_backtest_world. destruct (contains _ _ _) as [[]|]; simpl; try done.
      simpl in Hok. apply andb_true_iff in Hok as [_ Hfresh].
      apply negb_true_iff in Hfresh.
      rewrite dict_length_set, Hfresh, List.filter_app, length_app. simpl. lia.
    + by rewrite read_backtest_eval.
  - destruct (w_threads w !! j) as [th|] eqn:Hj; [|done]. simpl.
    destruct (thread_step th (w_store w)) as [[th' s']|] eqn:Hstep; [|done].
    intros [= <-]. simpl.
    destruct (thread_step_counts _ _ _ _ Hstep) as [Hr Hlen].
    rewrite Hlen, Hcount. symmetry. eapply filter_insert_length; [done|]. by rewrite Hr.
  - intros [= <-]. by destruct (serve_frame rq w) as (-> & _ & _ & -> & _).
Qed.

Lemma run_calls_counts tr w w' :
  List.length (backtests (w_store w)) = backtest_threads w →
  run_calls tr w = Some w' →
  List.length (backtests (w_store w')) = backtest_threads w'.
Proof.
  revert w. induction tr as [|c tr IH]; intros w Hcount; simpl.
  - by intros [= <-].
  - destruct (exec_call c w) as [w1|] eqn:Hc; [|done]. simpl.
    apply IH. by eapply exec_call_counts.
Qed.

(** X16. The health check counts what was created: in every reachable
    world it reports ["healthy"], the number [n] of projects, which is
    the id of the newest project (the ids being 1, ..., n), and the
    number of backtest jobs, which is the number of backtest runner
    threads that were started. *)
Theorem X16_health_counts w now :
  api_reachable w →
  ∃ n m, fst (serve (HealthCheck now) w)
         = Ok (HealthPayload "healthy" now (Z.of_nat n) (Z.of_nat m))
    ∧ dict_keys (projects (w_store w)) = Z.of_nat <$> seq 1 n
    ∧ m = backtest_threads w.
Proof.
  intros Hreach. apply api_reachable_projects_ok in Hreach as Hok.
  destruct Hok as (Hkeys & _).
  exists (List.length (projects (w_store w))), (List.length (backtests (w_store w))).
  split; [done|]. split; [done|].
  destruct Hreach as [tr Htr].
  apply (run_calls_counts tr init_world); [reflexivity | done].
Qed.

Lemma X16_witness :
  ∃ n m, fst (serve (HealthCheck "t") file_world)
         = Ok (HealthPayload "healthy" "t" (Z.of_nat n) (Z.of_nat m))
    ∧ dict_keys (projects (w_store file_world)) = Z.of_nat <$> seq 1 n
    ∧ m = backtest_threads file_world.
Proof. apply (X16_health_counts file_world "t"), file_world_reachable. Defined.

(** ** Reading by id and by name *)

(** X17. Reading a project by id: in every reachable world with [n]
    projects, a truthy id that can be hashed finds a project exactly
    when it equals one of 1, ..., n as a dictionary key (so [true] and
    [1.0] find project 1), and the record found carries that id;
    every other such id is answered with ["Project not found"]. *)
Theorem X17_read_project_by_id w data :
  api_reachable w →
  truthy (get data "projectId") = true →
  hashable (get data "projectId") = true →
  match as_int_key (get data "projectId") with
  | Some k =>
      if bool_decide (1 ≤ k ≤ Z.of_nat (List.length (projects (w_store w))))%Z
      then ∃ p, fst (serve (ReadProjects data) w) = Ok (Payload (ProjectsPayload true [p] []))
             ∧ Project.projectId p = k
      else fst (serve (ReadProjects data) w)
           = Ok (Payload (ProjectsPayload false [] ["Project not found"]))
  | None => fst (serve (ReadProjects data) w)
            = Ok (Payload (ProjectsPayload false [] ["Project not found"]))
  end.
Proof.
  intros Hreach Ht Hh. apply api_reachable_projects_ok in Hreach as (Hkeys & _ & Hid).
  rewrite read_projects_eval, Ht. cbn [fst]. unfold contains, getitem. rewrite Hh.
  destruct (as_int_key (get data "projectId")) as [k|]; [|done]. simpl.
  case_bool_decide as Hk.
  - apply elem_of_ids in Hk. rewrite <- Hkeys in Hk.
    apply dict_mem_keys in Hk as Hm. rewrite Hm.
    apply dict_mem_true in Hm as [p Hp]. rewrite Hp.
    exists p. split; [done|]. by apply Hid.
  - destruct (dict_mem (projects (w_store w)) k) eqn:Hm; [|done].
    apply dict_mem_keys in Hm. rewrite Hkeys in Hm. by apply elem_of_ids in Hm.
Qed.

Lemma X17_witness :
  ∃ p, fst (serve (ReadProjects [("projectId", JBool true)]) file_world)
       = Ok (Payload (ProjectsPayload true [p] []))
    ∧ Project.projectId p = 1.
Proof.
  exact (X17_read_project_by_id file_world [("projectId", JBool true)]
           file_world_reachable eq_refl eq_refl).
Defined.

(** X18. Reading a file by name: in every reachable world, for a known
    project and a truthy [fileName], [read_files] answers with one file
    of the project whose name equals the given one when there is such a
    file, and with ["File not found"] when there is none; it never
    returns a file of another name. *)
Theorem X18_read_file_by_name w data :
  api_reachable w →
  contains as_int_key (get data "projectId") (projects (w_store w)) = Ok true →
  truthy (get data "fileName") = true →
  ∃ fs, getitem as_int_key (get data "projectId") (files (w_store w)) = Ok fs
    ∧ ((∃ f, f ∈ fs ∧ py_eq (File.name f) (get data "fileName") = true) →
       ∃ f, fst (serve (ReadFiles data) w) = Ok (FilesPayload true [f] [])
         ∧ f ∈ fs ∧ py_eq (File.name f) (get data "fileName") = true)
    ∧ ((∀ f, f ∈ fs → py_eq (File.name f) (get data "fileName") = false) →
       fst (serve (ReadFiles data) w) = Ok (FilesPayload false [] ["File not found"])).
Proof.
  intros Hreach Hknown Ht. apply api_reachable_projects_ok in Hreach as Hok.
  destruct (known_project_files _ _ Hok Hknown) as (k & fs & _ & _ & _ & Hget).
  exists fs. split; [done|].
  rewrite read_files_eval, Hknown, Hget, Ht. cbn [fst].
  destruct (find _ fs) as [f|] eqn:Hfind.
  - apply find_some in Hfind as [Hin Hname]. apply list_elem_of_In in Hin.
    split; [intros _; by exists f|].
    intros Hnone. rewrite (Hnone f Hin) in Hname. done.
  - split; [|done]. intros (f & Hin & Hname).
    apply list_elem_of_In in Hin.
    pose proof (find_none _ _ Hfind f Hin) as Hno. simpl in Hno. congruence.
Qed.

Lemma X18_witness :
  ∃ fs, getitem as_int_key (JInt 1) (files (w_store file_world)) = Ok fs
    ∧ ((∃ f, f ∈ fs ∧ py_eq (File.name f) (JStr "Other.cs") = true) →
       ∃ f, fst (serve (ReadFiles [("projectId", JInt 1); ("fileName", JStr "Other.cs")])
                  file_world)
            = Ok (FilesPayload true [f] [])
         ∧ f ∈ fs ∧ py_eq (File.name f) (JStr "Other.cs") = true)
    ∧ ((∀ f, f ∈ fs → py_eq (File.name f) (JStr "Other.cs") = false) →
       fst (serve (ReadFiles [("projectId", JInt 1); ("fileName", JStr "Other.cs")])
              file_world)
       = Ok (FilesPayload false [] ["File not found"])).
Proof.
  apply (X18_read_file_by_name file_world
           [("projectId", JInt 1); ("fileName", JStr "Other.cs")]).
  - apply file_world_reachable.
  - vm_compute. reflexivity.
  - reflexivity.
Defined.
